(** * prettymaps.fetch: a shallow embedding of [fetch.py]

    The module is a thin layer over three libraries (osmnx, geopandas,
    shapely).  The embedding keeps the control flow, the keyword binding,
    the dictionary handling and the post-processing of [fetch.py], and
    - takes the geometry kernel (buffer, intersection, reprojection, ...)
      as an interface, [GeoLib]; the two laws some proofs rely on are
      [GeoLaws];
    - represents every call that leaves the process or that the module
      does not define (geocoding, Overpass downloads, the elevation
      helpers) as a node of a program tree, answered by an oracle;
    - keeps the dictionaries that [get_gdfs] receives in a store of
      objects addressed by references, since [get_gdfs] copies one of them
      and writes to the copy. *)

From Stdlib Require Import Ascii String QArith Qround.
From stdpp Require Import base option list strings gmap.

Set Warnings "-register-all".

Open Scope Z_scope.
Open Scope string_scope.
Open Scope list_scope.

(** ** Python values, exceptions and outcomes *)

(** Exceptions the module or the libraries under it can raise. *)
Inductive exn : Type :=
| KeyError (key : string)
| TypeError
| ValueError
| AttributeError
| NameError (name : string)
| LibraryError (what : string).

(** The result of evaluating a Python expression. *)
Inductive outcome (A : Type) : Type :=
| Returns (a : A)
| Raises (e : exn).
Arguments Returns {A} a.
Arguments Raises {A} e.

(** Values found in a layer configuration.  The module never writes
    into such a value, so a nested dictionary (the [tags] option) is a
    tree rather than an object of the store. *)
Inductive pyval : Type :=
| PNone
| PBool (b : bool)
| PNum (q : Q)
| PStr (s : string)
| PDict (items : list (string * pyval)).

(** The contents of a dictionary with string keys, in insertion order. *)
Definition dict (V : Type) : Type := list (string * V).

Definition keys {V} (d : dict V) : list string := map fst d.

(** [d.get(k)] / [d[k]] *)
Fixpoint dict_get {V} (d : dict V) (k : string) : option V :=
  match d with
  | [] => None
  | (k', v) :: d' => if String.eqb k' k then Some v else dict_get d' k
  end.

(** [k in d] *)
Definition dict_in {V} (k : string) (d : dict V) : bool :=
  match dict_get d k with Some _ => true | None => false end.

(** [d[k] = v]: replaces the value of an existing key in place, appends
    a new key. *)
Fixpoint dict_set {V} (d : dict V) (k : string) (v : V) : dict V :=
  match d with
  | [] => [(k, v)]
  | (k', v') :: d' =>
      if String.eqb k' k then (k', v) :: d' else (k', v') :: dict_set d' k v
  end.

(** The entries left after [del d[k]]. *)
Fixpoint dict_remove {V} (d : dict V) (k : string) : dict V :=
  match d with
  | [] => []
  | (k', v) :: d' =>
      if String.eqb k' k then dict_remove d' k else (k', v) :: dict_remove d' k
  end.

(** [d1.update(d2)] *)
Definition dict_update {V} (d1 d2 : dict V) : dict V :=
  fold_left (fun acc kv => dict_set acc (fst kv) (snd kv)) d2 d1.

(** Truth value of a configuration value ([if v:]). *)
Definition truthy (v : pyval) : bool :=
  match v with
  | PNone => false
  | PBool b => b
  | PNum q => negb (Qeq_bool q 0)
  | PStr s => negb (String.eqb s "")
  | PDict items => match items with [] => false | _ => true end
  end.

(** A value used as a number: [bool] is a subclass of [int]; anything
    else in an arithmetic position ends in a [TypeError]. *)
Definition as_num (v : pyval) : outcome Q :=
  match v with
  | PNum q => Returns q
  | PBool b => Returns (if b then 1%Q else 0%Q)
  | _ => Raises TypeError
  end.

(** ** The store of dictionary objects *)

(** References. *)
Definition loc : Type := nat.

(** The two kinds of dictionary [get_gdfs] meets: the layers
    dictionary, from layer names to configurations, and a configuration,
    from option names to values. *)
Inductive pyobj : Type :=
| OLayers (d : dict loc)
| OConfig (d : dict pyval).

Abbreviation store := (gmap loc pyobj).

(** ** Regular expressions: what [re.match] decides *)

Inductive regex : Type :=
| RVoid
| REps
| RRange (lo hi : ascii)
| RCat (r1 r2 : regex)
| RAlt (r1 r2 : regex)
| RStar (r : regex).

(** [r+] *)
Definition RPlus (r : regex) : regex := RCat r (RStar r).

Definition in_range (lo hi c : ascii) : bool :=
  ((nat_of_ascii lo <=? nat_of_ascii c)%nat && (nat_of_ascii c <=? nat_of_ascii hi)%nat)%bool.

Fixpoint nullable (r : regex) : bool :=
  match r with
  | RVoid => false
  | REps => true
  | RRange _ _ => false
  | RCat r1 r2 => nullable r1 && nullable r2
  | RAlt r1 r2 => nullable r1 || nullable r2
  | RStar _ => true
  end.

(** The derivative of [r] by the character [c]. *)
Fixpoint deriv (c : ascii) (r : regex) : regex :=
  match r with
  | RVoid => RVoid
  | REps => RVoid
  | RRange lo hi => if in_range lo hi c then REps else RVoid
  | RCat r1 r2 =>
      if nullable r1
      then RAlt (RCat (deriv c r1) r2) (deriv c r2)
      else RCat (deriv c r1) r2
  | RAlt r1 r2 => RAlt (deriv c r1) (deriv c r2)
  | RStar r1 => RCat (deriv c r1) (RStar r1)
  end.

(** [re.match(r, s)] is not [None]: some prefix of [s] matches [r]. *)
Fixpoint re_match (r : regex) (s : string) : bool :=
  nullable r ||
  match s with
  | EmptyString => false
  | String c s' => re_match (deriv c r) s'
  end.

(** [re.fullmatch(r, s)] is not [None]: the whole of [s] matches [r]. *)
Fixpoint re_fullmatch (r : regex) (s : string) : bool :=
  match s with
  | EmptyString => nullable r
  | String c s' => re_fullmatch (deriv c r) s'
  end.

(** The words of a regular expression. *)
Inductive matches : regex -> string -> Prop :=
| m_eps : matches REps ""
| m_range lo hi c : in_range lo hi c = true -> matches (RRange lo hi) (String c "")
| m_cat r1 r2 s1 s2 : matches r1 s1 -> matches r2 s2 -> matches (RCat r1 r2) (s1 +:+ s2)
| m_alt_l r1 r2 s : matches r1 s -> matches (RAlt r1 r2) s
| m_alt_r r1 r2 s : matches r2 s -> matches (RAlt r1 r2) s
| m_star_nil r : matches (RStar r) ""
| m_star_cons r s1 s2 : matches r s1 -> matches (RStar r) s2 -> matches (RStar r) (s1 +:+ s2).

(** The pattern of [parse_query]: [[A-Z][0-9]+]. *)
Definition osmid_pattern : regex :=
  RCat (RRange "A" "Z") (RPlus (RRange "0" "9")).

Definition is_upper (c : ascii) : bool := in_range "A" "Z" c.
Definition is_digit (c : ascii) : bool := in_range "0" "9" c.

Fixpoint all_digits (s : string) : bool :=
  match s with
  | EmptyString => true
  | String c s' => is_digit c && all_digits s'
  end.

(** An OSM id, as the pattern describes it: one capital letter (the
    element type: N, W, R) and then digits only, such as R2192363. *)
Definition is_osm_id (s : string) : bool := re_fullmatch osmid_pattern s.

(** ** Coordinate reference systems, index labels *)

Inductive crs : Type :=
| EPSG (code : Z).

(** [4326], the geographic (latitude/longitude) system. *)
Definition epsg4326 : crs := EPSG 4326.

(** Row labels of the frames that occur: the default [RangeIndex] of
    a frame built from a list, [(element_type, osmid)] for the frames of
    [geometries_from_polygon], [(u, v, key)] for the edges of a graph. *)
Inductive label : Type :=
| LRange (i : Z)
| LElem (element_type : string) (osmid : Z)
| LEdge (u v key : Z).

Definition label_eqb (a b : label) : bool :=
  match a, b with
  | LRange i, LRange j => Z.eqb i j
  | LElem t i, LElem u j => String.eqb t u && Z.eqb i j
  | LEdge u v k, LEdge u' v' k' => Z.eqb u u' && Z.eqb v v' && Z.eqb k k'
  | _, _ => false
  end.

(** ** The geometry kernel

    What the module uses of shapely, of the reprojection of geopandas
    and of the UTM estimate of osmnx.  [contains g p] says that the point
    [p] of the plane lies in the geometry [g]; it only serves to state
    containment. *)
Class GeoLib : Type := {
  geom : Type;
  pt : Type;
  graph : Type;
  raster : Type;
  contains : geom -> pt -> Prop;
  (** [g.is_empty] *)
  is_empty : geom -> bool;
  (** [a.intersection(b)] *)
  intersection : geom -> geom -> geom;
  (** [g.buffer(d)] *)
  buffer : geom -> Q -> geom;
  (** [unary_union(gs)] *)
  unary_union : list geom -> geom;
  (** [box( *g.bounds )] *)
  bounds_box : geom -> geom;
  (** [Point((x, y))] *)
  Point : Q -> Q -> geom;
  (** [x, y = np.concatenate(g.xy)] on a point *)
  point_xy : geom -> Q * Q;
  (** [Polygon(corners)] *)
  Polygon : list (Q * Q) -> geom;
  (** [rotate(g, angle)] *)
  rotate : geom -> Q -> geom;
  (** The coordinates of [g] moved from one system to another. *)
  transform : crs -> crs -> geom -> geom;
  (** The UTM system osmnx picks for a frame, from its geometries. *)
  utm_crs : list geom -> crs
}.

(** What the proofs assume of the kernel: a point of an intersection
    lies in both geometries, and reprojection does not empty a geometry
    or fill an empty one. *)
Class GeoLaws (L : GeoLib) : Prop := {
  intersection_contains :
    forall a b p, contains (intersection a b) p -> contains a p /\ contains b p;
  transform_is_empty :
    forall c1 c2 g, is_empty (transform c1 c2 g) = is_empty g
}.

Section Fetch.

Context {L : GeoLib}.

(** ** GeoDataFrames

    A frame (or a GeoSeries: a frame with the geometry column only) is
    its coordinate system and its rows, each a label and a geometry.
    The other columns play no part in [fetch.py]. *)
Record GeoDataFrame : Type := {
  gdf_crs : option crs;
  gdf_rows : list (label * geom)
}.

Definition geometries (g : GeoDataFrame) : list geom := map snd (gdf_rows g).

(** [GeoDataFrame(geometry=gs, crs=c)]: rows labelled 0, 1, ... *)
Definition new_gdf (gs : list geom) (c : option crs) : GeoDataFrame :=
  {| gdf_crs := c;
     gdf_rows := imap (fun i g => (LRange (Z.of_nat i), g)) gs |}.

(** Applies [f] to the geometry of every row. *)
Definition map_geometry (f : geom -> geom) (g : GeoDataFrame) : GeoDataFrame :=
  {| gdf_crs := gdf_crs g;
     gdf_rows := map (fun r => (fst r, f (snd r))) (gdf_rows g) |}.

(** [g.to_crs(c)]: geopandas refuses a frame without a system. *)
Definition to_crs (c : crs) (g : GeoDataFrame) : outcome GeoDataFrame :=
  match gdf_crs g with
  | None => Raises ValueError
  | Some c0 =>
      Returns {| gdf_crs := Some c;
                 gdf_rows := map (fun r => (fst r, transform c0 c (snd r))) (gdf_rows g) |}
  end.

(** [ox.project_gdf(g)]: osmnx refuses a frame without a system or
    without rows, and projects the others to their UTM system. *)
Definition project_gdf (g : GeoDataFrame) : outcome GeoDataFrame :=
  match gdf_crs g, gdf_rows g with
  | None, _ => Raises ValueError
  | _, [] => Raises ValueError
  | Some _, _ => to_crs (utm_crs (geometries g)) g
  end.

(** [g.geometry[0]]: the geometry of the row labelled 0. *)
Definition geometry_at (g : GeoDataFrame) (l : label) : outcome geom :=
  match List.filter (fun r => label_eqb (fst r) l) (gdf_rows g) with
  | r :: _ => Returns (snd r)
  | [] => Raises (KeyError "0")
  end.

(** [g.drop(g[g.geometry.is_empty].index, inplace=True)]: the labels of
    the rows with an empty geometry are collected, and every row that
    carries one of these labels is removed. *)
Definition empty_labels (g : GeoDataFrame) : list label :=
  map fst (List.filter (fun r => is_empty (snd r)) (gdf_rows g)).

Definition drop_labels (ls : list label) (g : GeoDataFrame) : GeoDataFrame :=
  {| gdf_crs := gdf_crs g;
     gdf_rows :=
       List.filter (fun r => negb (existsb (label_eqb (fst r)) ls)) (gdf_rows g) |}.

Definition drop_empty (g : GeoDataFrame) : GeoDataFrame :=
  drop_labels (empty_labels g) g.

(** The region a frame covers, and containment of a geometry in it. *)
Definition in_frame (g : GeoDataFrame) (p : pt) : Prop :=
  exists r, In r (gdf_rows g) /\ contains (snd r) p.

Definition within (x : geom) (region : pt -> Prop) : Prop :=
  forall p, contains x p -> region p.

(** ** Queries *)

(** The four shapes of a query: a frame, a [(lat, lon)] tuple, or a
    string (an OSM id or an address). *)
Inductive query : Type :=
| QFrame (g : GeoDataFrame)
| QTuple (lat lon : Q)
| QStr (s : string).

(** [parse_query] *)
Definition parse_query (q : query) : string :=
  match q with
  | QFrame _ => "polygon"
  | QTuple _ _ => "coordinates"
  | QStr s => if re_match osmid_pattern s then "osmid" else "address"
  end.

(** ** Calls that leave the module

    The geocoder, the Overpass downloads and the graph conversion of
    osmnx, and the four elevation helpers, which [fetch.py] calls but
    neither defines nor imports: whatever the interpreter finds under
    these names (a [NameError] included) is the reply of the oracle. *)
Inductive call : Type :=
| Geocode (q : query)
| GeocodeToGdf (q : query) (by_osmid : pyval) (kwargs : dict pyval)
| GeocodeOsmid (osmid : pyval)
| GraphFromPolygon (bbox : geom) (custom_filter : pyval)
| GraphToGdfs (g : graph)
| GeometriesFromPolygon (bbox : geom) (tags : pyval)
| GetElevation (elevation : pyval)
| MaskElevation (r : raster) (perimeter : GeoDataFrame)
| GetHillshade (r : raster) (pad azdeg altdeg vert_exag min_height max_height : pyval)
| GetLevelCurves (r : raster) (pad n_curves min_height max_height : pyval).

(** What a call returns when it returns. *)
Definition ret (c : call) : Type :=
  match c with
  | Geocode _ => (Q * Q)%type
  | GraphFromPolygon _ _ => graph
  | GetElevation _ | MaskElevation _ _ => raster
  | _ => GeoDataFrame
  end.

(** A program: a result, or a call and what to do with its reply. *)
Inductive prog (R : Type) : Type :=
| Done (r : R)
| Ext (c : call) (k : outcome (ret c) -> prog R).
Arguments Done {R} r.
Arguments Ext {R} c k.

Fixpoint prog_bind {A B} (m : prog A) (f : A -> prog B) : prog B :=
  match m with
  | Done a => f a
  | Ext c k => Ext c (fun r => prog_bind (k r) f)
  end.

(** Python code without a store: it returns or raises, after some
    calls.  No [try] occurs in [fetch.py], so an exception ends the
    computation it is raised in. *)
Definition py (A : Type) : Type := prog (outcome A).

Definition py_ret {A} (a : A) : py A := Done (Returns a).
Definition py_raise {A} (e : exn) : py A := Done (Raises e).

Definition py_bind {A B} (m : py A) (f : A -> py B) : py B :=
  prog_bind m (fun o => match o with Returns a => f a | Raises e => Done (Raises e) end).

(** The call itself: its reply is the outcome. *)
Definition ext (c : call) : py (ret c) := Ext c (fun r => Done r).

Notation "x <- m ;; k" := (py_bind m (fun x => k))
  (at level 100, m at next level, right associativity).

(** An oracle answers the [n]-th call of a run. *)
Definition oracle : Type := nat -> forall c : call, outcome (ret c).

(** Runs a program against an oracle, from the [n]-th call on; gives
    the result and the number of the next call. *)
Fixpoint exec {R} (w : oracle) (n : nat) (p : prog R) : R * nat :=
  match p with
  | Done r => (r, n)
  | Ext c k => exec w (S n) (k (w n c))
  end.

Definition run {R} (w : oracle) (p : prog R) : R := fst (exec w 0 p).

(** The calls of a run, each with its number. *)
Fixpoint calls {R} (w : oracle) (n : nat) (p : prog R) : list (nat * call) :=
  match p with
  | Done _ => []
  | Ext c k => (n, c) :: calls w (S n) (k (w n c))
  end.

(** ** [get_boundary] *)

(** [point[::-1]] needs a sequence: the query itself when it is a tuple. *)
Definition tuple_of (q : query) : outcome (Q * Q) :=
  match q with
  | QTuple lat lon => Returns (lat, lon)
  | _ => Raises TypeError
  end.

Definition get_boundary (q : query) (radius ratio : Q) (circle : pyval) (rotation : Q)
  : py GeoDataFrame :=
  (* point = query if parse_query(query) == "coordinates" else ox.geocode(query) *)
  point <- (if String.eqb (parse_query q) "coordinates"
            then Done (tuple_of q) else ext (Geocode q)) ;;
  (* boundary = ox.project_gdf(GeoDataFrame(geometry=[Point(point[::-1])], crs="EPSG:4326")) *)
  boundary <- Done (project_gdf
                      (new_gdf [Point (snd point) (fst point)] (Some epsg4326))) ;;
  boundary <-
    (if truthy circle
     then (* boundary.geometry = boundary.geometry.buffer(radius) *)
       py_ret (map_geometry (fun g => buffer g radius) boundary)
     else
       (* x, y = np.concatenate(boundary.geometry[0].xy) *)
       g0 <- Done (geometry_at boundary (LRange 0)) ;;
       let '(x, y) := point_xy g0 in
       let dx := (radius * ratio)%Q in
       let dy := radius in
       py_ret (new_gdf
                 [rotate (Polygon [((x - dx)%Q, (y - dy)%Q);
                                   ((x + dx)%Q, (y - dy)%Q);
                                   ((x + dx)%Q, (y + dy)%Q);
                                   ((x - dx)%Q, (y + dy)%Q)])
                         rotation]
                 (gdf_crs boundary))) ;;
  (* boundary = boundary.to_crs(4326) *)
  Done (to_crs epsg4326 boundary).

(** ** [get_perimeter] *)

(** [perimeter = query]: what follows, [ox.project_gdf], needs a frame. *)
Definition frame_of (q : query) : outcome GeoDataFrame :=
  match q with
  | QFrame g => Returns g
  | _ => Raises TypeError
  end.

(** The [else] branch of [if radius:]: the perimeter is the polygon
    the caller gave, or the one OSM has for the query. *)
Definition perimeter_of_query (q : query) (by_osmid : pyval) (kwargs : dict pyval)
  : py GeoDataFrame :=
  if String.eqb (parse_query q) "polygon"
  then Done (frame_of q)
  else ext (GeocodeToGdf q by_osmid kwargs).

(** The first statement of [get_perimeter]: [if radius: ... else: ...]. *)
Definition perimeter_source (q : query) (radius : option Q) (ratio : Q)
    (by_osmid circle : pyval) (rotation : Q) (kwargs : dict pyval) : py GeoDataFrame :=
  match radius with
  | Some r =>
      if truthy (PNum r)
      then get_boundary q r ratio circle rotation
      else perimeter_of_query q by_osmid kwargs
  | None => perimeter_of_query q by_osmid kwargs
  end.

Definition get_perimeter (q : query) (radius : option Q) (ratio : Q)
    (by_osmid circle : pyval) (dilate : option Q) (rotation : Q)
    (kwargs : dict pyval) : py GeoDataFrame :=
  perimeter <- perimeter_source q radius ratio by_osmid circle rotation kwargs ;;
  (* perimeter = ox.project_gdf(perimeter) *)
  perimeter <- Done (project_gdf perimeter) ;;
  (* if dilate is not None: perimeter.geometry = perimeter.geometry.buffer(dilate) *)
  let perimeter :=
    match dilate with
    | Some d => map_geometry (fun g => buffer g d) perimeter
    | None => perimeter
    end in
  (* perimeter = perimeter.to_crs(4326) *)
  Done (to_crs epsg4326 perimeter).

(** ** [get_gdf] *)

(** The keyword parameters of [get_gdf]. *)
Record gdf_options : Type := {
  o_perimeter_tolerance : pyval;
  o_dilate : pyval;
  o_tags : pyval;
  o_osmid : pyval;
  o_custom_filter : pyval;
  o_union : pyval;
  o_elevation : pyval;
  o_vert_exag : pyval;
  o_azdeg : pyval;
  o_altdeg : pyval;
  o_pad : pyval;
  o_min_height : pyval;
  o_max_height : pyval;
  o_n_curves : pyval
}.

Definition is_none (v : pyval) : bool :=
  match v with PNone => true | _ => false end.

(** [{tags: True} if type(tags) == str else tags] *)
Definition tags_arg (tags : pyval) : pyval :=
  match tags with
  | PStr s => PDict [(s, PBool true)]
  | _ => tags
  end.

(** The perimeter the layer is clipped to: the perimeter grown by
    [dilate + perimeter_tolerance] in its UTM system, back in EPSG:4326,
    merged into one geometry and cleaned by [buffer(0)]. *)
Definition perimeter_with_tolerance (perimeter : GeoDataFrame) (dilate tolerance : pyval)
  : outcome geom :=
  match project_gdf perimeter with
  | Raises e => Raises e
  | Returns projected =>
      match as_num dilate, as_num tolerance with
      | Returns d, Returns t =>
          match to_crs epsg4326 (map_geometry (fun g => buffer g (d + t)%Q) projected) with
          | Raises e => Raises e
          | Returns series => Returns (buffer (unary_union (geometries series)) 0%Q)
          end
      | Raises e, _ => Raises e
      | _, Raises e => Raises e
      end
  end.

(** The download of one layer, by its name. *)
Definition fetch_layer (layer : string) (perimeter : GeoDataFrame) (bbox : geom)
    (o : gdf_options) : py GeoDataFrame :=
  if String.eqb layer "hillshade" then
    elevation <- ext (GetElevation (o_elevation o)) ;;
    masked <- ext (MaskElevation elevation perimeter) ;;
    ext (GetHillshade masked (o_pad o) (o_azdeg o) (o_altdeg o) (o_vert_exag o)
           (o_min_height o) (o_max_height o))
  else if String.eqb layer "level_curves" then
    elevation <- ext (GetElevation (o_elevation o)) ;;
    masked <- ext (MaskElevation elevation perimeter) ;;
    ext (GetLevelCurves masked (o_pad o) (o_n_curves o) (o_min_height o) (o_max_height o))
  else if existsb (String.eqb layer) ["streets"; "railway"; "waterway"] then
    g <- ext (GraphFromPolygon bbox (o_custom_filter o)) ;;
    ext (GraphToGdfs g)
  else if String.eqb layer "coastline" then
    ext (GeometriesFromPolygon bbox (tags_arg (o_tags o)))
  else if is_none (o_osmid o) then
    ext (GeometriesFromPolygon bbox (tags_arg (o_tags o)))
  else
    ext (GeocodeOsmid (o_osmid o)).

(** [if dilate == None: dilate = 0] *)
Definition effective_dilate (dilate : pyval) : pyval :=
  if is_none dilate then PNum 0 else dilate.

Definition get_gdf (layer : string) (perimeter : GeoDataFrame) (o : gdf_options)
  : py GeoDataFrame :=
  let dilate := effective_dilate (o_dilate o) in
  pwt <- Done (perimeter_with_tolerance perimeter dilate (o_perimeter_tolerance o)) ;;
  (* bbox = box( *perimeter_with_tolerance.bounds ) *)
  let bbox := bounds_box pwt in
  gdf <- fetch_layer layer perimeter bbox o ;;
  (* gdf.geometry = gdf.geometry.intersection(perimeter_with_tolerance) *)
  let gdf := map_geometry (fun g => intersection g pwt) gdf in
  (* gdf.drop(gdf[gdf.geometry.is_empty].index, inplace=True) *)
  py_ret (drop_empty gdf).

(** ** Binding keyword arguments *)

Definition opt (kwargs : dict pyval) (name : string) (default : pyval) : pyval :=
  match dict_get kwargs name with
  | Some v => v
  | None => default
  end.

(** [get_gdf(layer, perimeter, **kwargs)]: a key that names a parameter
    given by position is a [TypeError]; keys that name no parameter land
    in the [**kwargs] of [get_gdf], which it ignores. *)
Definition bind_gdf_options (kwargs : dict pyval) : outcome gdf_options :=
  if existsb (fun k => dict_in k kwargs) ["layer"; "perimeter"]
  then Raises TypeError
  else Returns
    {| o_perimeter_tolerance := opt kwargs "perimeter_tolerance" (PNum 0);
       o_dilate := opt kwargs "dilate" (PNum 0);
       o_tags := opt kwargs "tags" PNone;
       o_osmid := opt kwargs "osmid" PNone;
       o_custom_filter := opt kwargs "custom_filter" PNone;
       o_union := opt kwargs "union" (PBool false);
       o_elevation := opt kwargs "elevation" PNone;
       o_vert_exag := opt kwargs "vert_exag" (PNum 1);
       o_azdeg := opt kwargs "azdeg" (PNum 90);
       o_altdeg := opt kwargs "altdeg" (PNum 80);
       o_pad := opt kwargs "pad" (PNum 1);
       o_min_height := opt kwargs "min_height" (PNum 30);
       o_max_height := opt kwargs "max_height" PNone;
       o_n_curves := opt kwargs "n_curves" (PNum 100) |}.

Definition call_get_gdf (layer : string) (perimeter : GeoDataFrame) (kwargs : dict pyval)
  : py GeoDataFrame :=
  o <- Done (bind_gdf_options kwargs) ;;
  get_gdf layer perimeter o.

(** [get_perimeter(query, radius=.., ratio=.., rotation=.., dilate=..,
    **perimeter_kwargs)]: a key of [perimeter_kwargs] that repeats one of
    these is a [TypeError]; [by_osmid] and [circle] are taken from it, the
    rest is the [**kwargs] of [get_perimeter]. *)
Definition call_get_perimeter (q : query) (radius : option Q) (ratio : Q)
    (rotation : Q) (dilate : option Q) (perimeter_kwargs : dict pyval)
  : py GeoDataFrame :=
  if existsb (fun k => dict_in k perimeter_kwargs)
       ["query"; "radius"; "ratio"; "rotation"; "dilate"]
  then py_raise TypeError
  else get_perimeter q radius ratio
         (opt perimeter_kwargs "by_osmid" (PBool false))
         (opt perimeter_kwargs "circle" (PBool false))
         dilate rotation
         (dict_remove (dict_remove perimeter_kwargs "by_osmid") "circle").

(** ** Code with a store *)

(** Python code that reads and writes the store. *)
Definition st (A : Type) : Type := store -> prog (outcome A * store).

Definition st_ret {A} (a : A) : st A := fun s => Done (Returns a, s).
Definition st_raise {A} (e : exn) : st A := fun s => Done (Raises e, s).

Definition st_bind {A B} (m : st A) (f : A -> st B) : st B :=
  fun s =>
    prog_bind (m s) (fun r =>
      match fst r with
      | Returns a => f a (snd r)
      | Raises e => Done (Raises e, snd r)
      end).

(** Code that does not touch the store. *)
Definition lift {A} (m : py A) : st A :=
  fun s => prog_bind m (fun o => Done (o, s)).

Notation "x <~ m ;; k" := (st_bind m (fun x => k))
  (at level 100, m at next level, right associativity).

(** A new dictionary object. *)
Definition alloc (o : pyobj) : st loc :=
  fun s => let l := fresh (dom s) in Done (Returns l, <[l := o]> s).

(** Reading a reference as a layers dictionary, as a configuration;
    what is not a dictionary of that kind cannot be used as one. *)
Definition load_layers (l : loc) : st (dict loc) :=
  fun s => match s !! l with
           | Some (OLayers d) => Done (Returns d, s)
           | _ => Done (Raises TypeError, s)
           end.

Definition load_config (l : loc) : st (dict pyval) :=
  fun s => match s !! l with
           | Some (OConfig d) => Done (Returns d, s)
           | _ => Done (Raises TypeError, s)
           end.

(** [d[k]] *)
Definition getitem {V} (d : dict V) (k : string) : st V :=
  match dict_get d k with
  | Some v => st_ret v
  | None => st_raise (KeyError k)
  end.

(** [deepcopy(c)] of a configuration: a new object with the same
    entries (the values are trees, which have no identity). *)
Definition deepcopy (l : loc) : st loc :=
  d <~ load_config l ;;
  alloc (OConfig d).

(** [c.pop(k)], without default: writes to the object [l]. *)
Definition dict_pop (l : loc) (k : string) : st pyval :=
  fun s => match s !! l with
           | Some (OConfig d) =>
               match dict_get d k with
               | Some v => Done (Returns v, <[l := OConfig (dict_remove d k)]> s)
               | None => Done (Raises (KeyError k), s)
               end
           | _ => Done (Raises AttributeError, s)
           end.

(** ** [get_gdfs] *)

(** The dictionary comprehension: the layers in the order of
    [layers_dict.items()], each fetched with its configuration. *)
Fixpoint fetch_layers (items : list (string * loc)) (perimeter : GeoDataFrame)
    (acc : dict GeoDataFrame) : st (dict GeoDataFrame) :=
  match items with
  | [] => st_ret acc
  | (layer, kwargs) :: items' =>
      if negb (String.eqb layer "perimeter")
      then
        kw <~ load_config kwargs ;;
        g <~ lift (call_get_gdf layer perimeter kw) ;;
        fetch_layers items' perimeter (dict_set acc layer g)
      else fetch_layers items' perimeter acc
  end.

(** The first statements of [get_gdfs]: the dictionary
    [perimeter_kwargs], as a reference. *)
Definition get_perimeter_kwargs (layers_dict : loc) : st loc :=
  (* perimeter_kwargs = {} *)
  perimeter_kwargs <~ alloc (OConfig []) ;;
  (* if "perimeter" in layers_dict: *)
  layers <~ load_layers layers_dict ;;
  if dict_in "perimeter" layers
  then
    (* perimeter_kwargs = deepcopy(layers_dict["perimeter"]) *)
    c <~ getitem layers "perimeter" ;;
    copy <~ deepcopy c ;;
    (* perimeter_kwargs.pop("dilate") *)
    _ <~ dict_pop copy "dilate" ;;
    st_ret copy
  else st_ret perimeter_kwargs.

Definition get_gdfs (q : query) (layers_dict : loc) (radius : option Q) (ratio : Q)
    (dilate : option Q) (rotation : Q) : st (dict GeoDataFrame) :=
  perimeter_kwargs <~ get_perimeter_kwargs layers_dict ;;
  (* perimeter = get_perimeter(query, radius=.., ..., **perimeter_kwargs) *)
  kw <~ load_config perimeter_kwargs ;;
  perimeter <~ lift (call_get_perimeter q radius ratio rotation dilate kw) ;;
  (* gdfs = {"perimeter": perimeter}; gdfs.update({... layers_dict.items() ...}) *)
  layers <~ load_layers layers_dict ;;
  others <~ fetch_layers layers perimeter [] ;;
  st_ret (dict_update [("perimeter", perimeter)] others).

(** ** Vocabulary of the statements *)

(** The run of [p] against [w] has a call answered by the exception [e]. *)
Fixpoint raised_in {R} (w : oracle) (n : nat) (p : prog R) (e : exn) : Prop :=
  match p with
  | Done _ => False
  | Ext c k => w n c = Raises e \/ raised_in w (S n) (k (w n c)) e
  end.

(** The exception a result stands for, if any. *)
Definition py_failure {A} (o : outcome A) : option exn :=
  match o with
  | Raises e => Some e
  | Returns _ => None
  end.

Definition st_failure {A} (r : outcome A * store) : option exn := py_failure (fst r).

(** A program that stops at the first call answered by an exception,
    with that exception as its result. *)
Fixpoint fail_stop {R} (failure : R -> option exn) (p : prog R) : Prop :=
  match p with
  | Done _ => True
  | Ext c k =>
      (forall e, exists r, k (Raises e) = Done r /\ failure r = Some e) /\
      (forall v, fail_stop failure (k (Returns v)))
  end.


(** Every reference held by a layers dictionary points to an object. *)
Definition closed (s : store) : Prop :=
  forall l d k c, s !! l = Some (OLayers d) -> In (k, c) d -> is_Some (s !! c).

(** Code that leaves the store as it finds it. *)
Definition keeps_store {A} (m : st A) : Prop :=
  forall w n s, snd (fst (exec w n (m s))) = s.

(** The objects of [s] are still in [s'], with the same contents. *)
Definition unchanged (s s' : store) : Prop :=
  forall l o, s !! l = Some o -> s' !! l = Some o.

End Fetch.

Arguments Done {L R} r.
Arguments Ext {L R} c k.

(** ** A kernel to compute with: geometries as sets of grid cells

    A geometry is the list of the unit cells it covers; distances are
    whole numbers of cells (the integer part of the number given), a
    positive buffer adds the cells within that distance, a negative one
    keeps the cells whose whole neighbourhood is covered.  Coordinate
    systems all share the one grid, and angles are ignored: the examples
    rotate by 0 only. *)
Module Grid.

Definition cell : Type := (Z * Z)%type.

Definition cell_eqb (a b : cell) : bool :=
  Z.eqb (fst a) (fst b) && Z.eqb (snd a) (snd b).

Definition cell_in (p : cell) (g : list cell) : bool := existsb (cell_eqb p) g.

(** The integers from [lo] to [hi]. *)
Definition range (lo hi : Z) : list Z :=
  map (fun i => lo + Z.of_nat i) (seq 0 (Z.to_nat (hi - lo + 1))).

(** The cells of the rectangle with the given corners. *)
Definition rect (x0 y0 x1 y1 : Z) : list cell :=
  flat_map (fun x => map (fun y => (x, y)) (range y0 y1)) (range x0 x1).

(** The cells at distance at most [r] from [p]. *)
Definition ball (r : Z) (p : cell) : list cell :=
  rect (fst p - r) (snd p - r) (fst p + r) (snd p + r).

Definition grid_buffer (g : list cell) (d : Q) : list cell :=
  let r := Qfloor d in
  if (0 <=? r)%Z
  then flat_map (ball r) g
  else List.filter (fun p => forallb (fun q => cell_in q g) (ball (- r) p)) g.

Definition grid_intersection (a b : list cell) : list cell :=
  List.filter (fun p => cell_in p b) a.

Definition grid_bounds_box (g : list cell) : list cell :=
  match g with
  | [] => []
  | p :: g' =>
      rect (fold_right Z.min (fst p) (map fst g')) (fold_right Z.min (snd p) (map snd g'))
           (fold_right Z.max (fst p) (map fst g')) (fold_right Z.max (snd p) (map snd g'))
  end.

Definition grid_is_empty (g : list cell) : bool :=
  match g with [] => true | _ => false end.

Definition grid_point_xy (g : list cell) : Q * Q :=
  match g with
  | p :: _ => (inject_Z (fst p), inject_Z (snd p))
  | [] => (0%Q, 0%Q)
  end.

Definition grid_polygon (corners : list (Q * Q)) : list cell :=
  grid_bounds_box (map (fun c => (Qfloor (fst c), Qfloor (snd c))) corners).

Definition lib : GeoLib :=
  {| geom := list cell;
     pt := cell;
     graph := nat;
     raster := nat;
     contains := fun g p => In p g;
     is_empty := grid_is_empty;
     intersection := grid_intersection;
     buffer := grid_buffer;
     unary_union := @concat cell;
     bounds_box := grid_bounds_box;
     Point := fun x y => [(Qfloor x, Qfloor y)];
     point_xy := grid_point_xy;
     Polygon := grid_polygon;
     rotate := fun g _ => g;
     transform := fun _ _ g => g;
     utm_crs := fun _ => EPSG 32631 |}.

End Grid.


(** ** Concrete runs on the grid *)

Module Examples.

#[local] Existing Instance Grid.lib.

(** A perimeter of two by two cells, in EPSG:4326. *)
Definition square : GeoDataFrame :=
  new_gdf [Grid.rect 0 0 1 1] (Some epsg4326).

(** What the downloads reply in the examples: three buildings, one on
    the edge of [square], one next to it and one far away; a point for
    the geocoder; a failure for everything else. *)
Definition buildings : GeoDataFrame :=
  {| gdf_crs := Some epsg4326;
     gdf_rows := [(LElem "way" 11, [(1, 1); (1, 2)]);
                  (LElem "way" 12, [(2, 0)]);
                  (LElem "way" 13, [(7, 7)])] |}.

Definition osm : oracle :=
  fun _ c =>
    match c with
    | Geocode _ => Returns (3%Q, 4%Q)
    | GeometriesFromPolygon _ _ => Returns buildings
    | GeocodeToGdf _ _ _ => Raises (LibraryError "Nominatim: no result")
    | GeocodeOsmid _ => Raises (LibraryError "Nominatim: no result")
    | GraphFromPolygon _ _ => Raises (LibraryError "Overpass: empty response")
    | GraphToGdfs _ => Raises (LibraryError "graph without edges")
    | GetElevation _ => Raises (NameError "get_elevation")
    | MaskElevation _ _ => Raises (NameError "mask_elevation")
    | GetHillshade _ _ _ _ _ _ _ => Raises (NameError "get_hillshade")
    | GetLevelCurves _ _ _ _ _ => Raises (NameError "get_level_curves")
    end.

(** The defaults of [get_gdf], with [tags] set. *)
Definition plain : gdf_options :=
  {| o_perimeter_tolerance := PNum 0; o_dilate := PNum 0;
     o_tags := PStr "building"; o_osmid := PNone; o_custom_filter := PNone;
     o_union := PBool false; o_elevation := PNone; o_vert_exag := PNum 1;
     o_azdeg := PNum 90; o_altdeg := PNum 80; o_pad := PNum 1;
     o_min_height := PNum 30; o_max_height := PNone; o_n_curves := PNum 100 |}.

(** The same with [perimeter_tolerance=1]. *)
Definition tolerant : gdf_options :=
  {| o_perimeter_tolerance := PNum 1; o_dilate := PNum 0;
     o_tags := PStr "building"; o_osmid := PNone; o_custom_filter := PNone;
     o_union := PBool false; o_elevation := PNone; o_vert_exag := PNum 1;
     o_azdeg := PNum 90; o_altdeg := PNum 80; o_pad := PNum 1;
     o_min_height := PNum 30; o_max_height := PNone; o_n_curves := PNum 100 |}.

(** The buildings left by the clipping, without and with the tolerance. *)
Definition clipped_plain : GeoDataFrame :=
  {| gdf_crs := Some epsg4326;
     gdf_rows := [(LElem "way" 11, [(1, 1)])] |}.

Definition clipped_tolerant : GeoDataFrame :=
  {| gdf_crs := Some epsg4326;
     gdf_rows := [(LElem "way" 11, [(1, 1); (1, 2)]);
                  (LElem "way" 12, [(2, 0)])] |}.

(** A perimeter of two by two cells far from every building. *)
Definition island : GeoDataFrame :=
  new_gdf [Grid.rect 20 20 21 21] (Some epsg4326).

(** A frame without rows, in EPSG:4326. *)
Definition no_rows : GeoDataFrame :=
  {| gdf_crs := Some epsg4326; gdf_rows := [] |}.

(** [square] shrunk by more than its half width: one row, nothing in it. *)
Definition hollow : GeoDataFrame :=
  {| gdf_crs := Some epsg4326; gdf_rows := [(LRange 0, [])] |}.


(** A layers dictionary at reference 1, with its two configurations. *)
Definition layers_store : store :=
  <[1%nat := OLayers [("perimeter", 2%nat); ("building", 3%nat)]]>
    (<[2%nat := OConfig [("dilate", PNum 1)]]>
       (<[3%nat := OConfig [("tags", PStr "building"); ("perimeter_tolerance", PNum 1)]]> ∅)).


(** What [get_gdfs] returns for [square] and [layers_store]. *)
Definition fetched : dict GeoDataFrame :=
  [("perimeter", square); ("building", clipped_tolerant)].

(** A layers dictionary whose perimeter configuration has no "dilate". *)
Definition no_dilate_store : store :=
  <[1%nat := OLayers [("perimeter", 2%nat)]]>
    (<[2%nat := OConfig [("circle", PBool true)]]> ∅).

End Examples.

(** ** Vocabulary of the further properties *)

(** The test [re.match] comes down to in [parse_query]: a capital
    letter, then a digit. *)
Definition starts_like_osmid (s : string) : bool :=
  match s with
  | String c (String d _) => is_upper c && is_digit d
  | _ => false
  end.

(** The names [get_gdf] gives to its parameters. *)
Definition gdf_parameters : list string :=
  ["layer"; "perimeter"; "perimeter_tolerance"; "dilate"; "tags"; "osmid";
   "custom_filter"; "union"; "elevation"; "vert_exag"; "azdeg"; "altdeg"; "pad";
   "min_height"; "max_height"; "n_curves"].


(** The statements of [get_gdfs] after [perimeter_kwargs] is ready. *)
Definition gdfs_of_kwargs {L : GeoLib} (q : query) (layers_dict : loc) (radius : option Q)
    (ratio : Q) (dilate : option Q) (rotation : Q) (perimeter_kwargs : loc)
  : st (dict GeoDataFrame) :=
  st_bind (load_config perimeter_kwargs) (fun kw =>
  st_bind (lift (call_get_perimeter q radius ratio rotation dilate kw)) (fun perimeter =>
  st_bind (load_layers layers_dict) (fun layers =>
  st_bind (fetch_layers layers perimeter []) (fun others =>
  st_ret (dict_update [("perimeter", perimeter)] others))))).

(** The keyword arguments [get_gdfs] hands to [get_perimeter]: none
    without a "perimeter" entry, else the entries of its configuration
    other than "dilate". *)
Definition perimeter_options (s : store) (layers : dict loc) : option (dict pyval) :=
  match dict_get layers "perimeter" with
  | None => Some []
  | Some c =>
      match s !! c with
      | Some (OConfig cfg) =>
          if dict_in "dilate" cfg then Some (dict_remove cfg "dilate") else None
      | _ => None
      end
  end.

(** ** More concrete runs on the grid *)

Module Cases.

#[local] Existing Instance Grid.lib.

(** [Examples.plain] with [perimeter_tolerance=None]. *)
Definition no_tolerance : gdf_options :=
  {| o_perimeter_tolerance := PNone; o_dilate := PNum 0;
     o_tags := PStr "building"; o_osmid := PNone; o_custom_filter := PNone;
     o_union := PBool false; o_elevation := PNone; o_vert_exag := PNum 1;
     o_azdeg := PNum 90; o_altdeg := PNum 80; o_pad := PNum 1;
     o_min_height := PNum 30; o_max_height := PNone; o_n_curves := PNum 100 |}.

(** [Examples.square] dilated by one cell. *)
Definition grown : GeoDataFrame :=
  {| gdf_crs := Some epsg4326;
     gdf_rows := [(LRange 0, Grid.grid_buffer (Grid.rect 0 0 1 1) 1)] |}.

(** The first building of [Examples.buildings]. *)
Definition terrace : geom := [(1, 1); (1, 2)].

(** A configuration, and the same with a drawing option added. *)
Definition tagged : dict pyval := [("tags", PStr "building")].

Definition styled : dict pyval := [("tags", PStr "building"); ("fc", PStr "#cccccc")].

(** A layers dictionary whose perimeter configuration names "radius". *)
Definition radius_store : store :=
  <[1%nat := OLayers [("perimeter", 2%nat)]]>
    (<[2%nat := OConfig [("dilate", PNum 1); ("radius", PNum 500)]]> ∅).

End Cases.

(** * Properties *)

(** ** The matcher decides the words of the expression *)

Lemma append_nil_l (s : string) : "" +:+ s = s.
Proof. reflexivity. Qed.

Lemma append_cons (c : ascii) (s1 s2 : string) :
  String c s1 +:+ s2 = String c (s1 +:+ s2).
Proof. reflexivity. Qed.

Lemma append_is_empty (s1 s2 : string) : s1 +:+ s2 = "" -> s1 = "" /\ s2 = "".
Proof.
  destruct s1; [rewrite append_nil_l; intros ->; split; reflexivity |].
  rewrite append_cons. discriminate.
Qed.

Lemma matches_empty_nullable r s : matches r s -> s = "" -> nullable r = true.
Proof.
  induction 1 as [ | lo hi c Hc | r1 r2 s1 s2 _ IH1 _ IH2 | r1 r2 s _ IH
                 | r1 r2 s _ IH | r | r s1 s2 _ _ _ _ ]; intros E; simpl.
  - reflexivity.
  - discriminate.
  - apply append_is_empty in E as [E1 E2]. now rewrite IH1, IH2.
  - now rewrite IH.
  - rewrite IH by exact E. apply orb_true_r.
  - reflexivity.
  - reflexivity.
Qed.

Lemma nullable_matches_empty r : nullable r = true -> matches r "".
Proof.
  induction r as [ | | lo hi | r1 IH1 r2 IH2 | r1 IH1 r2 IH2 | r IH ]; simpl; intros E.
  - discriminate.
  - constructor.
  - discriminate.
  - apply andb_prop in E as [E1 E2].
    change "" with ("" +:+ ""). constructor; auto.
  - apply orb_prop in E as [E | E]; [apply m_alt_l | apply m_alt_r]; auto.
  - constructor.
Qed.

Lemma deriv_sound c r : forall s, matches (deriv c r) s -> matches r (String c s).
Proof.
  induction r as [ | | lo hi | r1 IH1 r2 IH2 | r1 IH1 r2 IH2 | r IH ]; simpl; intros s H.
  - inversion H.
  - inversion H.
  - destruct (in_range lo hi c) eqn:E; inversion H; subst. now constructor.
  - destruct (nullable r1) eqn:E.
    + inversion H as [ | | | ? ? ? Hl | ? ? ? Hr | | ]; subst.
      * inversion Hl; subst.
        change (String c (s1 +:+ s2)) with (String c s1 +:+ s2). constructor; auto.
      * change (String c s) with ("" +:+ String c s).
        constructor; [now apply nullable_matches_empty | auto].
    + inversion H; subst.
      change (String c (s1 +:+ s2)) with (String c s1 +:+ s2). constructor; auto.
  - inversion H; subst; [apply m_alt_l | apply m_alt_r]; auto.
  - inversion H; subst.
    change (String c (s1 +:+ s2)) with (String c s1 +:+ s2). constructor; auto.
Qed.

Lemma deriv_complete r s0 :
  matches r s0 -> forall c s, s0 = String c s -> matches (deriv c r) s.
Proof.
  induction 1 as [ | lo hi c0 Hc | r1 r2 s1 s2 H1 IH1 H2 IH2 | r1 r2 s0 _ IH
                 | r1 r2 s0 _ IH | r | r s1 s2 H1 IH1 H2 IH2 ]; intros c s E; simpl.
  - discriminate.
  - injection E as -> <-. rewrite Hc. constructor.
  - destruct s1 as [|c1 s1]; rewrite ?append_nil_l, ?append_cons in E.
    + rewrite (matches_empty_nullable _ _ H1 eq_refl). apply m_alt_r. now apply IH2.
    + injection E as -> <-.
      destruct (nullable r1); [apply m_alt_l |]; constructor; auto.
  - apply m_alt_l. now apply IH.
  - apply m_alt_r. now apply IH.
  - discriminate.
  - destruct s1 as [|c1 s1]; rewrite ?append_nil_l, ?append_cons in E.
    + now apply IH2.
    + injection E as -> <-. constructor; auto.
Qed.

Lemma re_fullmatch_matches s : forall r, re_fullmatch r s = true <-> matches r s.
Proof.
  induction s as [|c s IH]; intros r; simpl.
  - split; [apply nullable_matches_empty | intros H; now apply matches_empty_nullable with ""].
  - rewrite IH. split; [apply deriv_sound | intros H; now apply deriv_complete with (String c s)].
Qed.

Lemma re_match_prefix s :
  forall r, re_match r s = true <-> exists p t, s = p +:+ t /\ matches r p.
Proof.
  induction s as [|c s IH]; intros r; simpl.
  - rewrite orb_false_r. split.
    + intros H. exists "", "". split; [reflexivity | now apply nullable_matches_empty].
    + intros (p & t & E & H). symmetry in E. apply append_is_empty in E as [-> _].
      now apply matches_empty_nullable with "".
  - split.
    + intros H. apply orb_prop in H as [H | H].
      * exists "", (String c s). split; [reflexivity | now apply nullable_matches_empty].
      * apply IH in H as (p & t & -> & H).
        exists (String c p), t. split; [reflexivity | now apply deriv_sound].
    + intros (p & t & E & H). destruct p as [|c' p]; rewrite ?append_nil_l, ?append_cons in E.
      * rewrite (matches_empty_nullable _ _ H eq_refl). reflexivity.
      * injection E as <- ->. apply orb_true_iff. right. apply IH.
        exists p, t. split; [reflexivity | now apply deriv_complete with (String c p)].
Qed.

(** ** What the pattern of [parse_query] accepts *)

Lemma matches_range lo hi s :
  matches (RRange lo hi) s -> exists c, s = String c "" /\ in_range lo hi c = true.
Proof. inversion 1; subst; eauto. Qed.

Lemma matches_star_digits s : matches (RStar (RRange "0" "9")) s -> all_digits s = true.
Proof.
  remember (RStar (RRange "0" "9")) as r eqn:E. intros H.
  induction H as [ | | | | | r | r s1 s2 H1 _ _ IH2 ]; try discriminate.
  - reflexivity.
  - injection E as ->. apply matches_range in H1 as (c & -> & Hc).
    rewrite append_cons, append_nil_l. simpl. unfold is_digit. rewrite Hc. now apply IH2.
Qed.

Lemma all_digits_star s : all_digits s = true -> matches (RStar (RRange "0" "9")) s.
Proof.
  induction s as [|c s IH]; simpl; intros H; [constructor |].
  apply andb_prop in H as [Hc Hs].
  change (String c s) with (String c "" +:+ s).
  constructor; [now constructor | now apply IH].
Qed.

(** The words of [[A-Z][0-9]+]. *)
Lemma matches_osmid_pattern s :
  matches osmid_pattern s <->
  exists c d ds, s = String c (String d ds) /\
                 is_upper c = true /\ is_digit d = true /\ all_digits ds = true.
Proof.
  unfold osmid_pattern, RPlus. split.
  - intros H. inversion H as [ | | ? ? s1 s2 H1 H2 | | | | ]; subst.
    apply matches_range in H1 as (c & -> & Hc).
    inversion H2 as [ | | ? ? s3 s4 H3 H4 | | | | ]; subst.
    apply matches_range in H3 as (d & -> & Hd).
    exists c, d, s4. repeat split; auto using matches_star_digits.
  - intros (c & d & ds & -> & Hc & Hd & Hds).
    change (String c (String d ds)) with (String c "" +:+ (String d "" +:+ ds)).
    repeat constructor; auto using all_digits_star.
Qed.

Lemma is_osm_id_spec s :
  is_osm_id s = true <->
  exists c d ds, s = String c (String d ds) /\
                 is_upper c = true /\ is_digit d = true /\ all_digits ds = true.
Proof. unfold is_osm_id. rewrite re_fullmatch_matches. apply matches_osmid_pattern. Qed.

(** [re.match] only looks at the beginning of the string: the test of
    [parse_query] is decided by the first two characters. *)
Lemma re_match_osmid_pattern s :
  re_match osmid_pattern s = true <->
  exists c d rest, s = String c (String d rest) /\ is_upper c = true /\ is_digit d = true.
Proof.
  rewrite re_match_prefix. split.
  - intros (p & t & -> & H). apply matches_osmid_pattern in H as (c & d & ds & -> & Hc & Hd & _).
    exists c, d, (ds +:+ t). auto.
  - intros (c & d & rest & -> & Hc & Hd).
    exists (String c (String d "")), rest. split; [reflexivity |].
    apply matches_osmid_pattern. exists c, d, "". auto.
Qed.

Section ParseQuery.

Context {L : GeoLib}.

Lemma parse_query_frame (g : GeoDataFrame) : parse_query (QFrame g) = "polygon".
Proof. reflexivity. Qed.

Lemma parse_query_tuple (lat lon : Q) : parse_query (QTuple lat lon) = "coordinates".
Proof. reflexivity. Qed.

Lemma parse_query_string (s : string) :
  parse_query (QStr s) = if re_match osmid_pattern s then "osmid" else "address".
Proof. reflexivity. Qed.

(** A string is classified "osmid" exactly when it begins with a
    capital letter and a digit, whatever follows. *)
Lemma parse_query_osmid (s : string) :
  parse_query (QStr s) = "osmid" <->
  exists c d rest, s = String c (String d rest) /\ is_upper c = true /\ is_digit d = true.
Proof.
  rewrite <- re_match_osmid_pattern. simpl.
  destruct (re_match osmid_pattern s); split; (reflexivity || discriminate).
Qed.

(** Every OSM id is classified "osmid". *)
Lemma parse_query_osm_id (s : string) :
  is_osm_id s = true -> parse_query (QStr s) = "osmid".
Proof.
  rewrite is_osm_id_spec, parse_query_osmid.
  intros (c & d & ds & -> & Hc & Hd & _). exists c, d, ds. auto.
Qed.

(** C3. [parse_query] is meant to tell an OSM id from a named place,
    but it tests the beginning of the string only: the postcode address
    "N1 9GU, London", which is not an OSM id, is classified "osmid". *)
Theorem parse_query_postcode_as_osmid :
  parse_query (QStr "N1 9GU, London") = "osmid" /\
  is_osm_id "N1 9GU, London" = false /\
  is_osm_id "R2192363" = true /\ parse_query (QStr "R2192363") = "osmid".
Proof. repeat split; reflexivity. Qed.

End ParseQuery.

(** ** Running sequenced programs *)

Section Runs.

Context {L : GeoLib}.

Lemma exec_bind {A B} (w : oracle) (m : prog A) (f : A -> prog B) :
  forall n, exec w n (prog_bind m f) = exec w (snd (exec w n m)) (f (fst (exec w n m))).
Proof.
  induction m as [a | c k IH]; intros n; simpl; [reflexivity | apply IH].
Qed.

Lemma exec_py_bind {A B} (w : oracle) (m : py A) (f : A -> py B) (n : nat) :
  exec w n (py_bind m f) =
  match fst (exec w n m) with
  | Returns a => exec w (snd (exec w n m)) (f a)
  | Raises e => (Raises e, snd (exec w n m))
  end.
Proof.
  unfold py_bind. rewrite exec_bind. destruct (fst (exec w n m)); reflexivity.
Qed.

Lemma py_bind_returns {A B} (w : oracle) (m : py A) (f : A -> py B) (n : nat) (b : B) :
  fst (exec w n (py_bind m f)) = Returns b ->
  exists a, fst (exec w n m) = Returns a /\
            fst (exec w (snd (exec w n m)) (f a)) = Returns b.
Proof.
  rewrite exec_py_bind. destruct (fst (exec w n m)) as [a | e]; simpl.
  - intros H. exists a. split; [reflexivity | exact H].
  - discriminate.
Qed.

Lemma exec_st_bind {A B} (w : oracle) (m : st A) (f : A -> st B) (s : store) (n : nat) :
  exec w n (st_bind m f s) =
  match fst (fst (exec w n (m s))) with
  | Returns a => exec w (snd (exec w n (m s))) (f a (snd (fst (exec w n (m s)))))
  | Raises e => ((Raises e, snd (fst (exec w n (m s)))), snd (exec w n (m s)))
  end.
Proof.
  unfold st_bind. rewrite exec_bind. destruct (fst (fst (exec w n (m s)))); reflexivity.
Qed.

Lemma exec_lift {A} (w : oracle) (m : py A) (s : store) (n : nat) :
  exec w n (lift m s) = ((fst (exec w n m), s), snd (exec w n m)).
Proof. unfold lift. rewrite exec_bind. reflexivity. Qed.

End Runs.

(** ** Dropping the rows with an empty geometry *)

Section Clipping.

Context {L : GeoLib}.

Lemma label_eqb_refl (l : label) : label_eqb l l = true.
Proof.
  destruct l; simpl; rewrite ?Z.eqb_refl, ?String.eqb_refl; reflexivity.
Qed.

Lemma drop_empty_rows (g : GeoDataFrame) (r : label * geom) :
  In r (gdf_rows (drop_empty g)) -> In r (gdf_rows g) /\ is_empty (snd r) = false.
Proof.
  unfold drop_empty, drop_labels, empty_labels. simpl.
  rewrite filter_In. intros [Hin Hkeep]. split; [exact Hin |].
  destruct (is_empty (snd r)) eqn:E; [| reflexivity].
  exfalso. apply negb_true_iff in Hkeep.
  assert (Hex : existsb (label_eqb (fst r))
                  (map fst (List.filter (fun r0 => is_empty (snd r0)) (gdf_rows g))) = true).
  { apply existsb_exists. exists (fst r). split; [| apply label_eqb_refl].
    apply in_map. apply filter_In. split; assumption. }
  congruence.
Qed.

Lemma map_geometry_rows (f : geom -> geom) (g : GeoDataFrame) (r : label * geom) :
  In r (gdf_rows (map_geometry f g)) ->
  exists x, In (fst r, x) (gdf_rows g) /\ snd r = f x.
Proof.
  unfold map_geometry. simpl. rewrite in_map_iff.
  intros ([l x] & <- & Hin). exists x. split; [exact Hin | reflexivity].
Qed.

(** What [get_gdf] returns when it returns: the frame fetched for the
    layer, intersected with the grown perimeter, without its empty rows. *)
Lemma get_gdf_returns (w : oracle) (n : nat) (layer : string)
    (perimeter : GeoDataFrame) (o : gdf_options) (g : GeoDataFrame) :
  fst (exec w n (get_gdf layer perimeter o)) = Returns g ->
  exists pwt fetched,
    perimeter_with_tolerance perimeter (effective_dilate (o_dilate o))
      (o_perimeter_tolerance o) = Returns pwt /\
    fst (exec w n (fetch_layer layer perimeter (bounds_box pwt) o)) = Returns fetched /\
    g = drop_empty (map_geometry (fun x => intersection x pwt) fetched).
Proof.
  unfold get_gdf. intros H.
  apply py_bind_returns in H as (pwt & Hpwt & H). simpl in Hpwt, H.
  apply py_bind_returns in H as (fetched & Hf & H). simpl in H.
  exists pwt, fetched. repeat split; [exact Hpwt | exact Hf | congruence].
Qed.

(** C4. The frame [get_gdf] returns has no row with an empty geometry. *)
Theorem get_gdf_no_empty_row (w : oracle) (n : nat) (layer : string)
    (perimeter : GeoDataFrame) (o : gdf_options) (g : GeoDataFrame) :
  fst (exec w n (get_gdf layer perimeter o)) = Returns g ->
  forall r, In r (gdf_rows g) -> is_empty (snd r) = false.
Proof.
  intros H r Hr. apply get_gdf_returns in H as (pwt & fetched & _ & _ & ->).
  now apply drop_empty_rows in Hr.
Qed.

(** C1, amended. On a kernel that keeps its laws, every geometry of
    the frame [get_gdf] returns lies in the perimeter grown by
    [dilate + perimeter_tolerance], the region [perimeter_with_tolerance]
    computes. *)
Theorem get_gdf_within_tolerance {HL : GeoLaws L} (w : oracle) (n : nat) (layer : string)
    (perimeter : GeoDataFrame) (o : gdf_options) (g : GeoDataFrame) :
  fst (exec w n (get_gdf layer perimeter o)) = Returns g ->
  exists pwt,
    perimeter_with_tolerance perimeter (effective_dilate (o_dilate o))
      (o_perimeter_tolerance o) = Returns pwt /\
    forall x, In x (geometries g) -> within x (contains pwt).
Proof.
  intros H. apply get_gdf_returns in H as (pwt & fetched & Hpwt & _ & ->).
  exists pwt. split; [exact Hpwt |].
  intros x Hx p Hp. unfold geometries in Hx. apply in_map_iff in Hx as (r & <- & Hr).
  apply drop_empty_rows in Hr as [Hr _].
  apply map_geometry_rows in Hr as (y & _ & Hy). rewrite Hy in Hp.
  now apply intersection_contains in Hp.
Qed.

End Clipping.

(** ** The perimeter *)

Section Perimeter.

Context {L : GeoLib}.

Lemma to_crs_returns (c : crs) (g p : GeoDataFrame) :
  to_crs c g = Returns p ->
  exists c0, gdf_crs g = Some c0 /\
             p = {| gdf_crs := Some c;
                    gdf_rows := map (fun r => (fst r, transform c0 c (snd r))) (gdf_rows g) |}.
Proof.
  unfold to_crs. destruct (gdf_crs g) as [c0|]; [| discriminate].
  intros [= <-]. exists c0. split; reflexivity.
Qed.

Lemma project_gdf_returns (g p : GeoDataFrame) :
  project_gdf g = Returns p ->
  gdf_rows g <> [] /\ to_crs (utm_crs (geometries g)) g = Returns p.
Proof.
  unfold project_gdf. destruct (gdf_crs g); [| discriminate].
  destruct (gdf_rows g); [discriminate |]. intros H. split; [discriminate | exact H].
Qed.

(** Reprojection keeps the labels, and which geometries are empty. *)
Lemma to_crs_rows {HL : GeoLaws L} (c : crs) (g p : GeoDataFrame) :
  to_crs c g = Returns p ->
  gdf_crs p = Some c /\
  map fst (gdf_rows p) = map fst (gdf_rows g) /\
  map is_empty (geometries p) = map is_empty (geometries g).
Proof.
  intros H. apply to_crs_returns in H as (c0 & _ & ->). unfold geometries. simpl.
  rewrite !map_map. simpl. repeat split.
  apply map_ext. intros r. apply transform_is_empty.
Qed.

Lemma map_fst_nonempty {A B} (l1 : list (A * B)) (l2 : list (A * B)) :
  map fst l1 = map fst l2 -> l2 <> [] -> l1 <> [].
Proof. destruct l1, l2; simpl; congruence. Qed.

(** What [get_perimeter] returns when it returns. *)
Lemma get_perimeter_returns (w : oracle) (n : nat) (q : query) (radius : option Q)
    (ratio : Q) (by_osmid circle : pyval) (dilate : option Q) (rotation : Q)
    (kwargs : dict pyval) (p : GeoDataFrame) :
  fst (exec w n (get_perimeter q radius ratio by_osmid circle dilate rotation kwargs))
    = Returns p ->
  exists p0 projected,
    fst (exec w n (perimeter_source q radius ratio by_osmid circle rotation kwargs))
      = Returns p0 /\
    project_gdf p0 = Returns projected /\
    to_crs epsg4326
      match dilate with
      | Some d => map_geometry (fun g => buffer g d) projected
      | None => projected
      end = Returns p.
Proof.
  unfold get_perimeter. intros H.
  apply py_bind_returns in H as (p0 & Hp0 & H).
  apply py_bind_returns in H as (projected & Hpr & H). simpl in Hpr, H.
  exists p0, projected. auto.
Qed.

(** C6, amended. On a kernel that keeps its laws, the perimeter
    [get_perimeter] returns is a frame in EPSG:4326 with at least one row;
    without [dilate], it has the labels of the frame obtained from the
    query, and an empty geometry exactly where that frame has one. *)
Theorem get_perimeter_epsg4326 {HL : GeoLaws L} (w : oracle) (n : nat) (q : query)
    (radius : option Q)
    (ratio : Q) (by_osmid circle : pyval) (dilate : option Q) (rotation : Q)
    (kwargs : dict pyval) (p : GeoDataFrame) :
  fst (exec w n (get_perimeter q radius ratio by_osmid circle dilate rotation kwargs))
    = Returns p ->
  gdf_crs p = Some epsg4326 /\
  gdf_rows p <> [] /\
  (dilate = None ->
   exists p0,
     fst (exec w n (perimeter_source q radius ratio by_osmid circle rotation kwargs))
       = Returns p0 /\
     map fst (gdf_rows p) = map fst (gdf_rows p0) /\
     map is_empty (geometries p) = map is_empty (geometries p0)).
Proof.
  intros H. apply get_perimeter_returns in H as (p0 & projected & Hp0 & Hpr & Hp).
  apply project_gdf_returns in Hpr as [Hne Hpr].
  apply to_crs_rows in Hpr as (_ & Hl1 & He1).
  apply to_crs_rows in Hp as (Hcrs & Hl2 & He2).
  split; [exact Hcrs |]. split.
  - apply (map_fst_nonempty _ (gdf_rows p0)); [| exact Hne].
    rewrite Hl2. destruct dilate; [| exact Hl1].
    unfold map_geometry. simpl. rewrite map_map. simpl. exact Hl1.
  - intros ->. exists p0. rewrite Hl2, He2. auto.
Qed.


End Perimeter.

(** ** Dictionaries *)

Section Dicts.

Context {V : Type}.

Lemma dict_get_keys (d : dict V) (k : string) :
  In k (keys d) <-> exists v, dict_get d k = Some v.
Proof.
  induction d as [|[k' v'] d IH]; simpl.
  - split; [intros [] | intros [v Hv]; discriminate].
  - destruct (String.eqb_spec k' k) as [-> | Hne].
    + split; [intros _; eauto | intros _; left; reflexivity].
    + rewrite <- IH. split; [intros [E | H]; [congruence | exact H] | intros H; right; exact H].
Qed.

Lemma dict_get_not_key (d : dict V) (k : string) :
  ~ In k (keys d) <-> dict_get d k = None.
Proof.
  rewrite dict_get_keys. destruct (dict_get d k) as [v|].
  - split; [intros H; exfalso; apply H; eauto | discriminate].
  - split; [reflexivity | intros _ [v Hv]; discriminate].
Qed.

Lemma dict_get_In (d : dict V) (k : string) (v : V) :
  dict_get d k = Some v -> In (k, v) d.
Proof.
  induction d as [|[k' v'] d IH]; simpl; [discriminate |].
  destruct (String.eqb_spec k' k) as [-> | Hne].
  - intros [= ->]. left. reflexivity.
  - intros H. right. apply IH, H.
Qed.

Lemma dict_get_set_eq (d : dict V) (k : string) (v : V) :
  dict_get (dict_set d k v) k = Some v.
Proof.
  induction d as [|[k' v'] d IH]; simpl.
  - rewrite String.eqb_refl. reflexivity.
  - destruct (String.eqb_spec k' k) as [-> | Hne]; simpl.
    + rewrite String.eqb_refl. reflexivity.
    + destruct (String.eqb_spec k' k); [contradiction | exact IH].
Qed.

Lemma dict_get_set_ne (d : dict V) (k k' : string) (v : V) :
  k <> k' -> dict_get (dict_set d k v) k' = dict_get d k'.
Proof.
  intros Hne. induction d as [|[k0 v0] d IH]; simpl.
  - destruct (String.eqb_spec k k'); [contradiction | reflexivity].
  - destruct (String.eqb_spec k0 k) as [-> | Hk]; simpl.
    + destruct (String.eqb_spec k k'); [contradiction | reflexivity].
    + destruct (String.eqb_spec k0 k'); [reflexivity | exact IH].
Qed.

Lemma keys_dict_set (d : dict V) (k k' : string) (v : V) :
  In k' (keys (dict_set d k v)) <-> k' = k \/ In k' (keys d).
Proof.
  rewrite !dict_get_keys. destruct (String.eqb_spec k k') as [-> | Hne].
  - rewrite dict_get_set_eq. split; [intros _; left; reflexivity | intros _; eauto].
  - rewrite dict_get_set_ne by exact Hne.
    split; [intros H; right; exact H | intros [E | H]; [congruence | exact H]].
Qed.

Lemma NoDup_keys_dict_set (d : dict V) (k : string) (v : V) :
  List.NoDup (keys d) -> List.NoDup (keys (dict_set d k v)).
Proof.
  induction d as [|[k' v'] d IH]; simpl; intros H.
  - apply List.NoDup_cons; [intros [] | apply List.NoDup_nil].
  - inversion H as [| ? ? Hnotin Hd]; subst.
    destruct (String.eqb_spec k' k) as [-> | Hne]; simpl.
    + apply List.NoDup_cons; assumption.
    + apply List.NoDup_cons; [| apply IH, Hd].
      change (~ In k' (keys (dict_set d k v))). rewrite keys_dict_set.
      intros [E | Hin]; [congruence | contradiction].
Qed.

Lemma NoDup_dict_get (d : dict V) (k : string) (v : V) :
  List.NoDup (keys d) -> In (k, v) d -> dict_get d k = Some v.
Proof.
  induction d as [|[k' v'] d IH]; simpl; intros Hnd Hin; [contradiction |].
  inversion Hnd as [| ? ? Hnotin Hd]; subst.
  destruct Hin as [[= -> ->] | Hin].
  - rewrite String.eqb_refl. reflexivity.
  - destruct (String.eqb_spec k' k) as [-> | Hne]; [| apply IH; assumption].
    exfalso. apply Hnotin. change (In k (keys d)).
    apply (in_map fst) in Hin. exact Hin.
Qed.

Lemma keys_dict_update (d2 : dict V) :
  forall (d1 : dict V) (k : string),
    In k (keys (dict_update d1 d2)) <-> In k (keys d1) \/ In k (keys d2).
Proof.
  unfold dict_update. induction d2 as [|[k0 v0] d2 IH]; intros d1 k; simpl.
  - split; [intros H; left; exact H | intros [H | []]; exact H].
  - rewrite IH, keys_dict_set. split.
    + intros [[-> | H] | H]; auto.
    + intros [H | [-> | H]]; auto.
Qed.

Lemma dict_get_update_none (d2 : dict V) :
  forall (d1 : dict V) (k : string),
    dict_get d2 k = None -> dict_get (dict_update d1 d2) k = dict_get d1 k.
Proof.
  unfold dict_update. induction d2 as [|[k0 v0] d2 IH]; intros d1 k; simpl; [reflexivity |].
  destruct (String.eqb_spec k0 k) as [-> | Hne]; [discriminate |].
  intros H. rewrite IH by exact H. apply dict_get_set_ne, Hne.
Qed.

Lemma dict_get_update_some (d2 : dict V) :
  forall (d1 : dict V) (k : string) (v : V),
    List.NoDup (keys d2) -> dict_get d2 k = Some v -> dict_get (dict_update d1 d2) k = Some v.
Proof.
  induction d2 as [|[k0 v0] d2 IH]; intros d1 k v Hnd; simpl; [discriminate |].
  inversion Hnd as [| ? ? Hnotin Hd]; subst.
  destruct (String.eqb_spec k0 k) as [-> | Hne].
  - intros [= ->]. change (dict_get (dict_update (dict_set d1 k v) d2) k = Some v).
    rewrite dict_get_update_none; [apply dict_get_set_eq | now apply dict_get_not_key].
  - intros H. change (dict_get (dict_update (dict_set d1 k0 v0) d2) k = Some v).
    now apply IH.
Qed.

End Dicts.

(** ** The store *)

Section Store.

Context {L : GeoLib}.

Lemma st_bind_returns {A B} (w : oracle) (m : st A) (f : A -> st B) (s : store)
    (n : nat) (b : B) :
  fst (fst (exec w n (st_bind m f s))) = Returns b ->
  exists a, fst (fst (exec w n (m s))) = Returns a /\
            fst (fst (exec w (snd (exec w n (m s)))
                        (f a (snd (fst (exec w n (m s))))))) = Returns b.
Proof.
  rewrite exec_st_bind. destruct (fst (fst (exec w n (m s)))) as [a | e]; simpl.
  - intros H. exists a. split; [reflexivity | exact H].
  - discriminate.
Qed.

Lemma keeps_store_ret {A} (a : A) : keeps_store (st_ret a).
Proof. intros w n s. reflexivity. Qed.

Lemma keeps_store_load_layers (l : loc) : keeps_store (load_layers l).
Proof.
  intros w n s. unfold load_layers. destruct (s !! l) as [[d | d] |]; reflexivity.
Qed.

Lemma keeps_store_load_config (l : loc) : keeps_store (load_config l).
Proof.
  intros w n s. unfold load_config. destruct (s !! l) as [[d | d] |]; reflexivity.
Qed.

Lemma keeps_store_lift {A} (m : py A) : keeps_store (lift m).
Proof. intros w n s. rewrite exec_lift. reflexivity. Qed.

Lemma st_bind_store {A B} (m : st A) (f : A -> st B) :
  (forall a, keeps_store (f a)) ->
  forall w n s,
    snd (fst (exec w n (st_bind m f s))) = snd (fst (exec w n (m s))).
Proof.
  intros Hf w n s. rewrite exec_st_bind.
  destruct (fst (fst (exec w n (m s)))) as [a | e]; [apply Hf | reflexivity].
Qed.

Lemma keeps_store_bind {A B} (m : st A) (f : A -> st B) :
  keeps_store m -> (forall a, keeps_store (f a)) -> keeps_store (st_bind m f).
Proof. intros Hm Hf w n s. rewrite st_bind_store by exact Hf. apply Hm. Qed.

Lemma keeps_store_fetch_layers (perimeter : GeoDataFrame) (items : list (string * loc)) :
  forall acc, keeps_store (fetch_layers items perimeter acc).
Proof.
  induction items as [|[layer c] items IH]; intros acc; simpl.
  - apply keeps_store_ret.
  - destruct (negb (layer =? "perimeter")%string); [| apply IH].
    apply keeps_store_bind; [apply keeps_store_load_config |]. intros kw.
    apply keeps_store_bind; [apply keeps_store_lift |]. intros g. apply IH.
Qed.

Lemma unchanged_refl (s : store) : unchanged s s.
Proof. intros l o H. exact H. Qed.

Lemma unchanged_trans (s1 s2 s3 : store) :
  unchanged s1 s2 -> unchanged s2 s3 -> unchanged s1 s3.
Proof. intros H12 H23 l o H. apply H23, H12, H. Qed.

(** A new object, and a write to an object that was not there, leave
    the objects that were there as they are. *)
Lemma unchanged_insert (s : store) (l : loc) (o : pyobj) :
  s !! l = None -> unchanged s (<[l := o]> s).
Proof.
  intros Hl l' o' H. rewrite lookup_insert_ne; [exact H |]. intros <-. congruence.
Qed.

Lemma fresh_lookup (s : store) : s !! fresh (dom s) = None.
Proof. apply not_elem_of_dom. apply is_fresh. Qed.

Lemma unchanged_alloc (s : store) (o : pyobj) : unchanged s (<[fresh (dom s) := o]> s).
Proof. apply unchanged_insert, fresh_lookup. Qed.

(** [get_perimeter_kwargs] makes no call; it allocates and writes to
    what it allocated. *)
Lemma get_perimeter_kwargs_done (layers_dict : loc) (s : store) :
  exists (o : outcome loc) (s' : store),
    get_perimeter_kwargs layers_dict s = Done (o, s') /\ unchanged s s'.
Proof.
  unfold get_perimeter_kwargs, deepcopy, st_bind, alloc, load_layers, load_config, getitem.
  simpl.
  set (l1 := fresh (dom s)). set (s1 := <[l1 := OConfig []]> s).
  assert (H1 : unchanged s s1) by apply unchanged_alloc.
  destruct (s1 !! layers_dict) as [[layers | cfg0] |]; simpl; eauto.
  destruct (dict_in "perimeter" layers); simpl; eauto.
  destruct (dict_get layers "perimeter") as [c |]; simpl; eauto.
  destruct (s1 !! c) as [[d | cfg] |]; simpl; eauto.
  set (l2 := fresh (dom s1)). set (s2 := <[l2 := OConfig cfg]> s1).
  assert (H2 : unchanged s s2).
  { apply unchanged_trans with s1; [exact H1 | apply unchanged_alloc]. }
  unfold dict_pop. replace (s2 !! l2) with (Some (OConfig cfg))
    by (symmetry; apply lookup_insert_eq).
  destruct (dict_get cfg "dilate") as [v |]; simpl; eauto.
  eexists _, _. split; [reflexivity |].
  apply unchanged_trans with s1; [exact H1 |].
  unfold s2. rewrite insert_insert_eq. apply unchanged_alloc.
Qed.

(** C8. [get_gdfs] leaves every dictionary of the caller as it was,
    whether it returns or raises: the objects of the store before the
    call are in the store after it with the same entries.  The only write,
    [pop("dilate")], goes to the copy made by [deepcopy]. *)
Theorem get_gdfs_keeps_layers_dict (w : oracle) (q : query) (layers_dict : loc)
    (radius : option Q) (ratio : Q) (dilate : option Q) (rotation : Q) (s : store) :
  unchanged s (snd (run w (get_gdfs q layers_dict radius ratio dilate rotation s))).
Proof.
  unfold run, get_gdfs. rewrite st_bind_store.
  - destruct (get_perimeter_kwargs_done layers_dict s) as (o & s' & -> & H). exact H.
  - intros pk. apply keeps_store_bind; [apply keeps_store_load_config |]. intros kw.
    apply keeps_store_bind; [apply keeps_store_lift |]. intros perimeter.
    apply keeps_store_bind; [apply keeps_store_load_layers |]. intros layers.
    apply keeps_store_bind; [apply keeps_store_fetch_layers |]. intros others.
    apply keeps_store_ret.
Qed.

Lemma get_perimeter_kwargs_no_dilate (layers_dict : loc) (s : store)
    (layers : dict loc) (c : loc) (cfg : dict pyval) :
  s !! layers_dict = Some (OLayers layers) ->
  dict_get layers "perimeter" = Some c ->
  s !! c = Some (OConfig cfg) ->
  dict_get cfg "dilate" = None ->
  exists s' : store,
    get_perimeter_kwargs layers_dict s = Done (Raises (KeyError "dilate"), s').
Proof.
  intros Hld Hc Hcfg Hd.
  unfold get_perimeter_kwargs, deepcopy, st_bind, alloc, load_layers, load_config, getitem.
  simpl.
  rewrite (unchanged_alloc s (OConfig []) _ _ Hld). simpl.
  unfold dict_in. rewrite Hc. simpl.
  rewrite (unchanged_alloc s (OConfig []) _ _ Hcfg). simpl.
  unfold dict_pop. rewrite lookup_insert_eq, Hd. simpl. eauto.
Qed.

(** C9. With a "perimeter" entry whose configuration has no "dilate",
    [get_gdfs] is the program that raises [KeyError('dilate')] at once:
    it makes no call, so nothing is fetched. *)
Theorem get_gdfs_missing_dilate (w : oracle) (q : query) (layers_dict : loc)
    (radius : option Q) (ratio : Q) (dilate : option Q) (rotation : Q) (s : store)
    (layers : dict loc) (c : loc) (cfg : dict pyval) :
  s !! layers_dict = Some (OLayers layers) ->
  dict_get layers "perimeter" = Some c ->
  s !! c = Some (OConfig cfg) ->
  dict_get cfg "dilate" = None ->
  (exists s' : store,
     get_gdfs q layers_dict radius ratio dilate rotation s =
     Done (Raises (KeyError "dilate"), s')) /\
  fst (run w (get_gdfs q layers_dict radius ratio dilate rotation s)) =
    Raises (KeyError "dilate") /\
  calls w 0 (get_gdfs q layers_dict radius ratio dilate rotation s) = [].
Proof.
  intros Hld Hc Hcfg Hd.
  destruct (get_perimeter_kwargs_no_dilate _ _ _ _ _ Hld Hc Hcfg Hd) as [s' Hs'].
  assert (H : get_gdfs q layers_dict radius ratio dilate rotation s =
              Done (Raises (KeyError "dilate"), s')).
  { unfold get_gdfs, st_bind at 1. rewrite Hs'. reflexivity. }
  split; [eauto |]. unfold run. rewrite H. split; reflexivity.
Qed.

Lemma load_config_returns (w : oracle) (n : nat) (l : loc) (s : store) (d : dict pyval) :
  fst (fst (exec w n (load_config l s))) = Returns d ->
  s !! l = Some (OConfig d) /\ exec w n (load_config l s) = ((Returns d, s), n).
Proof.
  unfold load_config. destruct (s !! l) as [[d' | d'] |]; simpl; try discriminate.
  intros [= ->]. split; reflexivity.
Qed.

Lemma load_layers_returns (w : oracle) (n : nat) (l : loc) (s : store) (d : dict loc) :
  fst (fst (exec w n (load_layers l s))) = Returns d ->
  s !! l = Some (OLayers d) /\ exec w n (load_layers l s) = ((Returns d, s), n).
Proof.
  unfold load_layers. destruct (s !! l) as [[d' | d'] |]; simpl; try discriminate.
  intros [= ->]. split; reflexivity.
Qed.

(** The comprehension: each layer other than "perimeter" is fetched
    once, with the configuration its reference points to, and lands under
    its name. *)
Lemma fetch_layers_returns (w : oracle) (perimeter : GeoDataFrame) (s : store)
    (items : list (string * loc)) :
  forall (n : nat) (acc others : dict GeoDataFrame),
    fst (fst (exec w n (fetch_layers items perimeter acc s))) = Returns others ->
    List.NoDup (keys items) ->
    List.NoDup (keys acc) ->
    List.NoDup (keys others) /\
    (forall k, In k (keys others) <->
               In k (keys acc) \/ (In k (keys items) /\ k <> "perimeter")) /\
    (forall k, ~ In k (keys items) -> dict_get others k = dict_get acc k) /\
    (forall layer c, In (layer, c) items -> layer <> "perimeter" ->
       exists cfg g m,
         s !! c = Some (OConfig cfg) /\
         fst (exec w m (call_get_gdf layer perimeter cfg)) = Returns g /\
         dict_get others layer = Some g).
Proof.
  induction items as [|[layer c] items IH]; intros n acc others H Hnd Hacc.
  - simpl in H. injection H as <-. repeat split; auto.
    + intros [Hk | [[] _]]. exact Hk.
    + intros layer c [].
  - simpl in Hnd. inversion Hnd as [| ? ? Hnotin Hnd']; subst.
    simpl in H. destruct (String.eqb_spec layer "perimeter") as [-> | Hne]; simpl in H.
    + destruct (IH _ _ _ H Hnd' Hacc) as (Ho & Hk & Hg & Hl).
      split; [exact Ho |]. split; [| split].
      * intros k. rewrite Hk. simpl. split.
        -- intros [Ha | [Hi Hp]]; auto.
        -- intros [Ha | [[E | Hi] Hp]]; auto. congruence.
      * intros k Hnk. apply Hg. intros Hi. apply Hnk. right. exact Hi.
      * intros layer c' [[= <- <-] | Hi] Hp; [congruence | now apply Hl].
    + apply st_bind_returns in H as (cfg & Hcfg & H).
      apply load_config_returns in Hcfg as [Hcfg Hex]. rewrite Hex in H. simpl in H.
      apply st_bind_returns in H as (g & Hg & H). rewrite exec_lift in Hg, H.
      simpl in Hg, H.
      destruct (IH _ _ _ H Hnd' (NoDup_keys_dict_set _ _ _ Hacc)) as (Ho & Hk & Hget & Hl).
      split; [exact Ho |]. split; [| split].
      * intros k. rewrite Hk, keys_dict_set. simpl. split.
        -- intros [[-> | Ha] | [Hi Hp]]; auto.
        -- intros [Ha | [[<- | Hi] Hp]]; auto.
      * intros k Hnk. rewrite Hget.
        -- apply dict_get_set_ne. intros <-. apply Hnk. left. reflexivity.
        -- intros Hi. apply Hnk. right. exact Hi.
      * intros layer' c' [[= <- <-] | Hi] Hp; [| now apply Hl].
        exists cfg, g, n. repeat split; [exact Hcfg | exact Hg |].
        rewrite Hget by exact Hnotin. apply dict_get_set_eq.
Qed.

(** What [get_gdfs] returns when it returns. *)
Lemma get_gdfs_returns (w : oracle) (q : query) (layers_dict : loc)
    (radius : option Q) (ratio : Q) (dilate : option Q) (rotation : Q) (s : store)
    (gdfs : dict GeoDataFrame) :
  fst (run w (get_gdfs q layers_dict radius ratio dilate rotation s)) = Returns gdfs ->
  exists (s' : store) (kw : dict pyval) (perimeter : GeoDataFrame)
         (layers : dict loc) (others : dict GeoDataFrame) (n : nat),
    unchanged s s' /\
    fst (exec w 0 (call_get_perimeter q radius ratio rotation dilate kw))
      = Returns perimeter /\
    s' !! layers_dict = Some (OLayers layers) /\
    fst (fst (exec w n (fetch_layers layers perimeter [] s'))) = Returns others /\
    gdfs = dict_update [("perimeter", perimeter)] others.
Proof.
  unfold run, get_gdfs. intros H.
  apply st_bind_returns in H as (pk & Hpk & H).
  destruct (get_perimeter_kwargs_done layers_dict s) as (o & s' & Hdone & Hun).
  rewrite Hdone in Hpk, H. simpl in Hpk, H. subst o.
  apply st_bind_returns in H as (kw & Hkw & H).
  apply load_config_returns in Hkw as [_ Hex]. rewrite Hex in H. simpl in H.
  apply st_bind_returns in H as (perimeter & Hp & H). rewrite exec_lift in Hp, H.
  simpl in Hp, H.
  apply st_bind_returns in H as (layers & Hl & H).
  apply load_layers_returns in Hl as [Hl Hex']. rewrite Hex' in H. simpl in H.
  apply st_bind_returns in H as (others & Ho & H). simpl in H.
  exists s', kw, perimeter, layers, others.
  eexists. repeat split; [exact Hun | exact Hp | exact Hl | exact Ho | congruence].
Qed.

(** C2. When [get_gdfs] returns, the keys of its dictionary are
    "perimeter" and the layer names of [layers_dict], and each layer other
    than "perimeter" holds the frame [get_gdf] produced for it, called with
    the configuration [layers_dict] has for it. *)
Theorem get_gdfs_result (w : oracle) (q : query) (layers_dict : loc)
    (radius : option Q) (ratio : Q) (dilate : option Q) (rotation : Q) (s : store)
    (layers : dict loc) (gdfs : dict GeoDataFrame) :
  s !! layers_dict = Some (OLayers layers) ->
  List.NoDup (keys layers) ->
  closed s ->
  fst (run w (get_gdfs q layers_dict radius ratio dilate rotation s)) = Returns gdfs ->
  (forall k, In k (keys gdfs) <-> k = "perimeter" \/ In k (keys layers)) /\
  exists perimeter,
    dict_get gdfs "perimeter" = Some perimeter /\
    forall layer c,
      layer <> "perimeter" -> dict_get layers layer = Some c ->
      exists cfg g m,
        s !! c = Some (OConfig cfg) /\
        fst (exec w m (call_get_gdf layer perimeter cfg)) = Returns g /\
        dict_get gdfs layer = Some g.
Proof.
  intros Hld Hnd Hclosed H.
  apply get_gdfs_returns in H as (s' & kw & perimeter & layers' & others & n
                                   & Hun & _ & Hld' & Ho & ->).
  rewrite (Hun _ _ Hld) in Hld'. injection Hld' as <-.
  destruct (fetch_layers_returns _ _ _ _ _ _ _ Ho Hnd (List.NoDup_nil _))
    as (Hndo & Hk & _ & Hl).
  assert (Hnp : dict_get others "perimeter" = None).
  { apply dict_get_not_key. rewrite Hk. intros [[] | [_ Hp]]. congruence. }
  split.
  - intros k. rewrite keys_dict_update, Hk. simpl. split.
    + intros [[<- | []] | [[] | [Hi _]]]; auto.
    + intros [-> | Hi]; [auto |].
      destruct (String.eqb_spec k "perimeter") as [-> | Hne]; auto.
  - exists perimeter. split.
    + rewrite dict_get_update_none by exact Hnp. reflexivity.
    + intros layer c Hne Hc. apply dict_get_In in Hc as Hin.
      destruct (Hl _ _ Hin Hne) as (cfg & g & m & Hcfg & Hg & Hget).
      exists cfg, g, m. repeat split; [| exact Hg |].
      * destruct (Hclosed _ _ _ _ Hld Hin) as [o Hs]. rewrite (Hun _ _ Hs) in Hcfg.
        congruence.
      * now apply dict_get_update_some.
Qed.

End Store.

(** ** Replies decide the run *)

Section Replies.

Context {L : GeoLib}.



(** ** Exceptions of the libraries *)

Lemma fail_stop_raised {R} (failure : R -> option exn) (p : prog R) :
  forall (w : oracle) (n : nat) (e : exn),
    fail_stop failure p -> raised_in w n p e -> failure (fst (exec w n p)) = Some e.
Proof.
  induction p as [r | c k IH]; intros w n e Hfs Hr; simpl in *; [contradiction |].
  destruct Hfs as [Hraise Hret].
  destruct (w n c) as [v | e'] eqn:E.
  - destruct Hr as [Hr | Hr]; [discriminate |]. now apply IH.
  - destruct (Hraise e') as (r & Hk & Hf). rewrite Hk in *. simpl in *.
    destruct Hr as [[= <-] | []]. exact Hf.
Qed.

Lemma fail_stop_prog_bind {A B} (fA : A -> option exn) (fB : B -> option exn)
    (m : prog A) (f : A -> prog B) :
  fail_stop fA m ->
  (forall a, fail_stop fB (f a)) ->
  (forall a e, fA a = Some e -> exists b, f a = Done b /\ fB b = Some e) ->
  fail_stop fB (prog_bind m f).
Proof.
  intros Hm Hf Hfail. induction m as [a | c k IH]; simpl in *; [apply Hf |].
  destruct Hm as [Hraise Hret]. split.
  - intros e. destruct (Hraise e) as (r & -> & Hr). simpl. now apply Hfail.
  - intros v. apply IH, Hret.
Qed.

Lemma fail_stop_ext (c : call) : fail_stop py_failure (ext c).
Proof. simpl. split; [intros e; eauto | intros v; exact I]. Qed.

(** The goal is about a call: its type shows the call. *)
Ltac fail_stop_call :=
  match goal with
  | |- fail_stop _ (ext ?c) => exact (fail_stop_ext c)
  end.

Lemma fail_stop_py_bind {A B} (m : py A) (f : A -> py B) :
  fail_stop py_failure m ->
  (forall a, fail_stop py_failure (f a)) ->
  fail_stop py_failure (py_bind m f).
Proof.
  intros Hm Hf. unfold py_bind. apply fail_stop_prog_bind with (fA := py_failure).
  - exact Hm.
  - intros [a | e]; [apply Hf | exact I].
  - intros [a | e'] e; simpl; [discriminate | intros [= ->]; eauto].
Qed.

Lemma fail_stop_lift {A} (m : py A) (s : store) :
  fail_stop py_failure m -> fail_stop st_failure (lift m s).
Proof.
  intros Hm. unfold lift. apply fail_stop_prog_bind with (fA := py_failure).
  - exact Hm.
  - intros o. exact I.
  - intros o e Ho. eauto.
Qed.

Lemma fail_stop_st_bind {A B} (m : st A) (f : A -> st B) (s : store) :
  fail_stop st_failure (m s) ->
  (forall a s', fail_stop st_failure (f a s')) ->
  fail_stop st_failure (st_bind m f s).
Proof.
  intros Hm Hf. unfold st_bind. apply fail_stop_prog_bind with (fA := st_failure).
  - exact Hm.
  - intros [[a | e] s']; simpl; [apply Hf | exact I].
  - intros [[a | e'] s'] e; unfold st_failure; simpl; [discriminate | intros [= ->]; eauto].
Qed.

Lemma fail_stop_get_boundary (q : query) (radius ratio : Q) (circle : pyval) (rotation : Q) :
  fail_stop py_failure (get_boundary q radius ratio circle rotation).
Proof.
  unfold get_boundary. apply fail_stop_py_bind.
  - destruct (parse_query q =? "coordinates")%string; [exact I | fail_stop_call].
  - intros point. apply fail_stop_py_bind; [exact I |]. intros boundary.
    apply fail_stop_py_bind; [| intros b; exact I].
    destruct (truthy circle); [exact I |].
    apply fail_stop_py_bind; [exact I |]. intros g0. destruct (point_xy g0). exact I.
Qed.

Lemma fail_stop_get_perimeter (q : query) (radius : option Q) (ratio : Q)
    (by_osmid circle : pyval) (dilate : option Q) (rotation : Q) (kwargs : dict pyval) :
  fail_stop py_failure (get_perimeter q radius ratio by_osmid circle dilate rotation kwargs).
Proof.
  assert (Hq : fail_stop py_failure (perimeter_of_query q by_osmid kwargs)).
  { unfold perimeter_of_query.
    destruct (parse_query q =? "polygon")%string; [exact I | fail_stop_call]. }
  unfold get_perimeter. apply fail_stop_py_bind.
  - unfold perimeter_source. destruct radius as [r |]; [| exact Hq].
    destruct (truthy (PNum r)); [apply fail_stop_get_boundary | exact Hq].
  - intros p. apply fail_stop_py_bind; [exact I |]. intros p'. exact I.
Qed.

Lemma fail_stop_fetch_layer (layer : string) (perimeter : GeoDataFrame) (bbox : geom)
    (o : gdf_options) :
  fail_stop py_failure (fetch_layer layer perimeter bbox o).
Proof.
  unfold fetch_layer.
  repeat match goal with
         | |- fail_stop _ (if ?b then _ else _) => destruct b
         | |- fail_stop _ (py_bind _ _) => apply fail_stop_py_bind; [| intro]
         | |- fail_stop _ (ext _) => fail_stop_call
         end.
Qed.

Lemma fail_stop_get_gdf (layer : string) (perimeter : GeoDataFrame) (o : gdf_options) :
  fail_stop py_failure (get_gdf layer perimeter o).
Proof.
  unfold get_gdf. apply fail_stop_py_bind; [exact I |]. intros pwt.
  apply fail_stop_py_bind; [apply fail_stop_fetch_layer |]. intros g. exact I.
Qed.

Lemma fail_stop_fetch_layers (perimeter : GeoDataFrame) (items : list (string * loc)) :
  forall acc s, fail_stop st_failure (fetch_layers items perimeter acc s).
Proof.
  induction items as [|[layer c] items IH]; intros acc s; simpl; [exact I |].
  destruct (negb (layer =? "perimeter")%string); [| apply IH].
  apply fail_stop_st_bind.
  - unfold load_config. destruct (s !! c) as [[d | d] |]; exact I.
  - intros kw s1. apply fail_stop_st_bind; [| intros g s2; apply IH].
    apply fail_stop_lift. unfold call_get_gdf.
    apply fail_stop_py_bind; [exact I | intros o; apply fail_stop_get_gdf].
Qed.

Lemma fail_stop_get_gdfs (q : query) (layers_dict : loc) (radius : option Q) (ratio : Q)
    (dilate : option Q) (rotation : Q) (s : store) :
  fail_stop st_failure (get_gdfs q layers_dict radius ratio dilate rotation s).
Proof.
  unfold get_gdfs. apply fail_stop_st_bind.
  - destruct (get_perimeter_kwargs_done layers_dict s) as (o & s' & -> & _). exact I.
  - intros pk s1. apply fail_stop_st_bind.
    + unfold load_config. destruct (s1 !! pk) as [[d | d] |]; exact I.
    + intros kw s2. apply fail_stop_st_bind.
      * apply fail_stop_lift. unfold call_get_perimeter.
        destruct (existsb _ _); [exact I | apply fail_stop_get_perimeter].
      * intros perimeter s3. apply fail_stop_st_bind.
        -- unfold load_layers. destruct (s3 !! layers_dict) as [[d | d] |]; exact I.
        -- intros layers s4. apply fail_stop_st_bind; [apply fail_stop_fetch_layers |].
           intros others s5. exact I.
Qed.

Lemma filter_none {A} (f : A -> bool) (l : list A) :
  (forall x, In x l -> f x = false) -> List.filter f l = [].
Proof.
  induction l as [|a l IH]; simpl; intros H; [reflexivity |].
  rewrite (H a) by (left; reflexivity). apply IH. intros x Hx. apply H. right. exact Hx.
Qed.

Lemma drop_empty_all_empty (g : GeoDataFrame) :
  (forall x, In x (geometries g) -> is_empty x = true) ->
  drop_empty g = {| gdf_crs := gdf_crs g; gdf_rows := [] |}.
Proof.
  intros H. unfold drop_empty, drop_labels, empty_labels. f_equal.
  apply filter_none. intros r Hr. apply negb_false_iff.
  apply existsb_exists. exists (fst r). split; [| apply label_eqb_refl].
  apply in_map. apply filter_In. split; [exact Hr |].
  apply H. unfold geometries. now apply in_map.
Qed.

(** C5, amended. [get_gdf] and [get_gdfs] handle no failure: when a
    call they make is answered by an exception, that exception is their
    outcome.  An empty intersection is no failure: when every fetched
    geometry misses the grown perimeter, [get_gdf] returns the frame
    without rows. *)
Theorem library_errors_propagate (w : oracle) (q : query) (layers_dict : loc)
    (radius : option Q) (ratio : Q) (dilate : option Q) (rotation : Q) (s : store)
    (n : nat) (layer : string) (perimeter : GeoDataFrame) (o : gdf_options) :
  (forall e,
     raised_in w 0 (get_gdfs q layers_dict radius ratio dilate rotation s) e ->
     fst (run w (get_gdfs q layers_dict radius ratio dilate rotation s)) = Raises e) /\
  (forall e,
     raised_in w n (get_gdf layer perimeter o) e ->
     fst (exec w n (get_gdf layer perimeter o)) = Raises e) /\
  (forall pwt fetched,
     perimeter_with_tolerance perimeter (effective_dilate (o_dilate o))
       (o_perimeter_tolerance o) = Returns pwt ->
     fst (exec w n (fetch_layer layer perimeter (bounds_box pwt) o)) = Returns fetched ->
     (forall x, In x (geometries fetched) -> is_empty (intersection x pwt) = true) ->
     fst (exec w n (get_gdf layer perimeter o)) =
       Returns {| gdf_crs := gdf_crs fetched; gdf_rows := [] |}).
Proof.
  split; [| split].
  - intros e H.
    apply (fail_stop_raised st_failure) in H; [| apply fail_stop_get_gdfs].
    unfold run, st_failure in *.
    destruct (fst (fst (exec w 0 _))); simpl in H; congruence.
  - intros e H.
    apply (fail_stop_raised py_failure) in H; [| apply fail_stop_get_gdf].
    destruct (fst (exec w n _)); simpl in H; congruence.
  - intros pwt fetched Hpwt Hf Hempty. unfold get_gdf.
    rewrite exec_py_bind. simpl. rewrite Hpwt.
    rewrite exec_py_bind, Hf. simpl. f_equal.
    rewrite drop_empty_all_empty; [reflexivity |].
    intros x Hx. unfold geometries, map_geometry in Hx. simpl in Hx.
    rewrite map_map in Hx. simpl in Hx. apply in_map_iff in Hx as (r & <- & Hr).
    apply Hempty. unfold geometries. now apply in_map.
Qed.

End Replies.

(** ** The grid is a kernel *)

Lemma cell_in_In (p : Grid.cell) (g : list Grid.cell) : Grid.cell_in p g = true -> In p g.
Proof.
  unfold Grid.cell_in. rewrite existsb_exists. intros [q [Hq Heq]].
  unfold Grid.cell_eqb in Heq. apply andb_prop in Heq as [Hx Hy].
  apply Z.eqb_eq in Hx. apply Z.eqb_eq in Hy.
  destruct p, q; simpl in *; subst; exact Hq.
Qed.

Lemma grid_intersection_contains (a b : list Grid.cell) (p : Grid.cell) :
  In p (Grid.grid_intersection a b) -> In p a /\ In p b.
Proof.
  unfold Grid.grid_intersection. rewrite filter_In. intros [Ha Hb].
  split; [exact Ha | apply cell_in_In, Hb].
Qed.

#[export] Instance grid_laws : GeoLaws Grid.lib.
Proof.
  split.
  - exact grid_intersection_contains.
  - reflexivity.
Qed.

(** ** Clipping, on the grid *)

Lemma get_gdf_tolerant :
  fst (exec Examples.osm 0 (get_gdf "building" Examples.square Examples.tolerant)) =
  Returns Examples.clipped_tolerant.
Proof. reflexivity. Qed.

(** With [perimeter_tolerance=1] the building next to the perimeter is
    kept: the frame returned has a geometry with a point, (2, 0), that
    the perimeter does not contain. *)
Lemma get_gdf_outside_perimeter :
  exists g x,
    fst (exec Examples.osm 0 (get_gdf "building" Examples.square Examples.tolerant))
      = Returns g /\
    In x (geometries g) /\ ~ within x (in_frame Examples.square).
Proof.
  eexists. exists [(2, 0)]. split; [apply get_gdf_tolerant |]. split.
  - simpl. right. left. reflexivity.
  - intros H. destruct (H (2, 0)) as (r & Hr & Hp); [left; reflexivity |].
    destruct Hr as [<- | []]. simpl in Hp.
    repeat (destruct Hp as [Hp | Hp]; [discriminate Hp |]). exact Hp.
Qed.

Lemma get_gdf_within_tolerance_witness :
  fst (exec Examples.osm 0 (get_gdf "building" Examples.square Examples.tolerant)) =
    Returns Examples.clipped_tolerant /\
  exists pwt,
    perimeter_with_tolerance Examples.square
      (effective_dilate (o_dilate Examples.tolerant))
      (o_perimeter_tolerance Examples.tolerant) = Returns pwt /\
    forall x, In x (geometries Examples.clipped_tolerant) -> within x (contains pwt).
Proof.
  split; [reflexivity |].
  apply (get_gdf_within_tolerance Examples.osm 0 "building" Examples.square
           Examples.tolerant Examples.clipped_tolerant).
  reflexivity.
Defined.

Lemma get_gdf_no_empty_row_witness :
  fst (exec Examples.osm 0 (get_gdf "building" Examples.square Examples.plain)) =
    Returns Examples.clipped_plain /\
  forall r, In r (gdf_rows Examples.clipped_plain) -> is_empty (snd r) = false.
Proof.
  split; [reflexivity |].
  apply (get_gdf_no_empty_row Examples.osm 0 "building" Examples.square
           Examples.plain Examples.clipped_plain).
  reflexivity.
Defined.

(** ** The perimeter, on the grid *)

(** A dilation of -1 leaves nothing of a square of two by two cells:
    [get_perimeter] returns a frame whose only geometry is empty. *)
Lemma get_perimeter_empty_region :
  exists p r,
    fst (exec Examples.osm 0
           (get_perimeter (QFrame Examples.square) None 1 (PBool false) (PBool false)
              (Some (-1)%Q) 0 [])) = Returns p /\
    In r (gdf_rows p) /\ is_empty (snd r) = true.
Proof.
  exists Examples.hollow, (LRange 0, []).
  split; [reflexivity |]. split; [left; reflexivity | reflexivity].
Qed.

Lemma get_perimeter_epsg4326_witness :
  fst (exec Examples.osm 0
         (get_perimeter (QFrame Examples.square) None 1 (PBool false) (PBool false)
            None 0 [])) = Returns Examples.square /\
  gdf_crs Examples.square = Some epsg4326 /\
  gdf_rows Examples.square <> [] /\
  (@None Q = None ->
   exists p0,
     fst (exec Examples.osm 0
            (perimeter_source (QFrame Examples.square) None 1 (PBool false) (PBool false)
               0 [])) = Returns p0 /\
     map fst (gdf_rows Examples.square) = map fst (gdf_rows p0) /\
     map is_empty (geometries Examples.square) = map is_empty (geometries p0)).
Proof.
  split; [reflexivity |].
  apply (get_perimeter_epsg4326 Examples.osm 0 (QFrame Examples.square) None 1
           (PBool false) (PBool false) None 0 [] Examples.square).
  reflexivity.
Defined.


(** ** [get_gdfs], on the grid *)

Lemma layers_store_closed : closed Examples.layers_store.
Proof.
  intros l d k c H Hin. unfold Examples.layers_store in H.
  apply lookup_insert_Some in H as [[<- [= <-]] | [_ H]].
  - destruct Hin as [[= <- <-] | [[= <- <-] | []]]; eexists; reflexivity.
  - apply lookup_insert_Some in H as [[_ [=]] | [_ H]].
    apply lookup_insert_Some in H as [[_ [=]] | [_ H]].
    rewrite lookup_empty in H. discriminate.
Qed.

Lemma get_gdfs_result_witness :
  fst (run Examples.osm
         (get_gdfs (QFrame Examples.square) 1%nat None 1 None 0 Examples.layers_store))
    = Returns Examples.fetched /\
  (forall k, In k (keys Examples.fetched) <->
             k = "perimeter" \/ In k ["perimeter"; "building"]) /\
  exists perimeter,
    dict_get Examples.fetched "perimeter" = Some perimeter /\
    forall layer c,
      layer <> "perimeter" ->
      dict_get [("perimeter", 2%nat); ("building", 3%nat)] layer = Some c ->
      exists cfg g m,
        Examples.layers_store !! c = Some (OConfig cfg) /\
        fst (exec Examples.osm m (call_get_gdf layer perimeter cfg)) = Returns g /\
        dict_get Examples.fetched layer = Some g.
Proof.
  split; [reflexivity |].
  apply (get_gdfs_result Examples.osm (QFrame Examples.square) 1%nat None 1 None 0
           Examples.layers_store [("perimeter", 2%nat); ("building", 3%nat)]
           Examples.fetched).
  - reflexivity.
  - repeat constructor; simpl; intuition discriminate.
  - exact layers_store_closed.
  - reflexivity.
Defined.

Lemma get_gdfs_missing_dilate_witness :
  Examples.no_dilate_store !! 1%nat = Some (OLayers [("perimeter", 2%nat)]) /\
  dict_get [("perimeter", 2%nat)] "perimeter" = Some 2%nat /\
  Examples.no_dilate_store !! 2%nat = Some (OConfig [("circle", PBool true)]) /\
  dict_get [("circle", PBool true)] "dilate" = None /\
  fst (run Examples.osm
         (get_gdfs (QTuple 3 4) 1%nat (Some 2%Q) 1 None 0 Examples.no_dilate_store))
    = Raises (KeyError "dilate") /\
  calls Examples.osm 0
    (get_gdfs (QTuple 3 4) 1%nat (Some 2%Q) 1 None 0 Examples.no_dilate_store) = [].
Proof.
  repeat (split; [reflexivity |]).
  apply (get_gdfs_missing_dilate Examples.osm (QTuple 3 4) 1%nat (Some 2%Q) 1 None 0
           Examples.no_dilate_store [("perimeter", 2%nat)] 2%nat [("circle", PBool true)]);
    reflexivity.
Defined.


(** ** Failures, on the grid *)

(** No building meets the perimeter [island]: every intersection is
    empty, and [get_gdf] returns, with a frame without rows. *)
Lemma get_gdf_empty_intersection_returns :
  exists pwt,
    perimeter_with_tolerance Examples.island
      (effective_dilate (o_dilate Examples.plain))
      (o_perimeter_tolerance Examples.plain) = Returns pwt /\
    (forall x, In x (geometries Examples.buildings) ->
               is_empty (intersection x pwt) = true) /\
    fst (exec Examples.osm 0 (get_gdf "building" Examples.island Examples.plain))
      = Returns Examples.no_rows.
Proof.
  eexists. split; [reflexivity |]. split.
  - intros x [<- | [<- | [<- | []]]]; reflexivity.
  - reflexivity.
Qed.

Lemma library_errors_propagate_witness :
  fst (run Examples.osm
         (get_gdfs (QStr "Atlantis") 1%nat None 1 None 0 Examples.layers_store))
    = Raises (LibraryError "Nominatim: no result") /\
  fst (exec Examples.osm 0 (get_gdf "streets" Examples.square Examples.plain))
    = Raises (LibraryError "Overpass: empty response") /\
  fst (exec Examples.osm 0 (get_gdf "building" Examples.island Examples.plain))
    = Returns Examples.no_rows.
Proof.
  pose proof (library_errors_propagate Examples.osm (QStr "Atlantis") 1%nat None 1 None 0
                Examples.layers_store 0 "streets" Examples.square Examples.plain)
    as (Hgdfs & Hgdf & _).
  pose proof (library_errors_propagate Examples.osm (QStr "Atlantis") 1%nat None 1 None 0
                Examples.layers_store 0 "building" Examples.island Examples.plain)
    as (_ & _ & Hempty).
  split; [| split].
  - apply Hgdfs. hnf. left. reflexivity.
  - apply Hgdf. hnf. left. reflexivity.
  - apply (Hempty (Grid.rect 20 20 21 21) Examples.buildings).
    + reflexivity.
    + reflexivity.
    + intros x [<- | [<- | [<- | []]]]; reflexivity.
Defined.

(** * Further properties *)

(** ** [parse_query] *)

Section ParseQueryMore.

Context {L : GeoLib}.

(** X1. On a string, [parse_query] looks at the first two characters
    only: the answer is "osmid" when they are a capital letter and a digit,
    "address" in every other case, the empty string and a string of one
    character included. *)
Theorem parse_query_first_two_characters (s : string) :
  parse_query (QStr s) = if starts_like_osmid s then "osmid" else "address".
Proof.
  simpl. destruct (re_match osmid_pattern s) eqn:E.
  - apply re_match_osmid_pattern in E as (c & d & rest & -> & Hc & Hd).
    simpl. now rewrite Hc, Hd.
  - destruct (starts_like_osmid s) eqn:E'; [| reflexivity].
    destruct s as [|c [|d rest]]; try discriminate. simpl in E'.
    apply andb_prop in E' as [Hc Hd].
    assert (H : re_match osmid_pattern (String c (String d rest)) = true).
    { apply re_match_osmid_pattern. exists c, d, rest. auto. }
    congruence.
Qed.

End ParseQueryMore.

(** ** [get_boundary] *)

Section BoundaryMore.

Context {L : GeoLib}.

Lemma get_boundary_of_tuple (lat lon radius ratio : Q) (circle : pyval) (rotation : Q) :
  exists b,
    get_boundary (QTuple lat lon) radius ratio circle rotation = Done (Returns b) /\
    gdf_crs b = Some epsg4326 /\
    map fst (gdf_rows b) = [LRange 0].
Proof.
  unfold get_boundary, py_bind, py_ret. cbn.
  destruct (truthy circle); cbn.
  - eexists. split; [reflexivity |]. split; reflexivity.
  - unfold geometry_at. cbn. change (Z.of_nat 0 =? 0)%Z with true. cbn.
    match goal with |- context [point_xy ?g] => destruct (point_xy g) as [x y] end.
    eexists. split; [reflexivity |]. split; reflexivity.
Qed.


Lemma get_boundary_unfold (q : query) (radius ratio : Q) (circle : pyval) (rotation : Q) :
  parse_query q <> "coordinates" ->
  get_boundary q radius ratio circle rotation =
  prog_bind (ext (Geocode q))
    (fun o => match o with
              | Returns point =>
                  get_boundary (QTuple (fst point) (snd point)) radius ratio circle rotation
              | Raises e => Done (Raises e)
              end).
Proof.
  intros Hq. unfold get_boundary at 1.
  destruct (String.eqb_spec (parse_query q) "coordinates") as [E | _]; [contradiction |].
  reflexivity.
Qed.

(** X3. With any other query, [get_boundary] calls the geocoder, once
    and before anything else: its failure is the failure of [get_boundary],
    and with the point it returns [get_boundary] goes on as it does for
    these coordinates. *)
Theorem get_boundary_geocodes (w : oracle) (n : nat) (q : query) (radius ratio : Q)
    (circle : pyval) (rotation : Q) :
  parse_query q <> "coordinates" ->
  calls w n (get_boundary q radius ratio circle rotation) = [(n, Geocode q)] /\
  fst (exec w n (get_boundary q radius ratio circle rotation)) =
    match w n (Geocode q) with
    | Returns point =>
        fst (exec w (S n) (get_boundary (QTuple (fst point) (snd point))
                             radius ratio circle rotation))
    | Raises e => Raises e
    end.
Proof.
  intros Hq. rewrite get_boundary_unfold by exact Hq.
  unfold ext. cbn [prog_bind calls exec].
  destruct (w n (Geocode q)) as [[lat lon] | e]; [| split; reflexivity].
  cbn [fst snd].
  destruct (get_boundary_of_tuple lat lon radius ratio circle rotation) as (b & -> & _).
  split; reflexivity.
Qed.

End BoundaryMore.

(** ** [get_perimeter] *)

Section PerimeterMore.

Context {L : GeoLib}.



(** X6. When [get_perimeter] returns, its rows are the rows of the
    frame obtained from the query, in the same order and under the same
    labels; each geometry was moved to the UTM system of that frame,
    dilated there when [dilate] is given (0 included), and moved to
    EPSG:4326. *)
Theorem get_perimeter_rows (w : oracle) (n : nat) (q : query) (radius : option Q)
    (ratio : Q) (by_osmid circle : pyval) (dilate : option Q) (rotation : Q)
    (kwargs : dict pyval) (p : GeoDataFrame) :
  fst (exec w n (get_perimeter q radius ratio by_osmid circle dilate rotation kwargs))
    = Returns p ->
  exists p0 c0,
    fst (exec w n (perimeter_source q radius ratio by_osmid circle rotation kwargs))
      = Returns p0 /\
    gdf_crs p0 = Some c0 /\
    gdf_rows p =
      map (fun r =>
             let utm := utm_crs (geometries p0) in
             let g := transform c0 utm (snd r) in
             (fst r,
              transform utm epsg4326
                match dilate with
                | Some d => buffer g d
                | None => g
                end))
          (gdf_rows p0).
Proof.
  intros H. apply get_perimeter_returns in H as (p0 & projected & Hp0 & Hpr & Hp).
  apply project_gdf_returns in Hpr as [_ Hpr].
  apply to_crs_returns in Hpr as (c0 & Hc0 & ->).
  exists p0, c0. split; [exact Hp0 |]. split; [exact Hc0 |].
  apply to_crs_returns in Hp as (c1 & Hc1 & ->).
  destruct dilate as [d |]; simpl in *; injection Hc1 as <-;
    rewrite ?map_map; reflexivity.
Qed.

End PerimeterMore.

(** ** [get_gdf] *)

Section GdfMore.

Context {L : GeoLib}.

(** X7. A perimeter without rows, or without coordinate system, makes
    [get_gdf] raise [ValueError] before it fetches anything. *)
Theorem get_gdf_perimeter_rejected (layer : string) (perimeter : GeoDataFrame)
    (o : gdf_options) :
  gdf_rows perimeter = [] \/ gdf_crs perimeter = None ->
  get_gdf layer perimeter o = Done (Raises ValueError).
Proof.
  intros H. unfold get_gdf, perimeter_with_tolerance, project_gdf, py_bind.
  destruct H as [-> | ->]; [destruct (gdf_crs perimeter) |]; reflexivity.
Qed.

(** X8. [perimeter_tolerance] must be a number: with [None], a string
    or a dictionary, added to a [dilate] that is a number or [None],
    [get_gdf] raises [TypeError] before it fetches anything (unlike
    [dilate], for which [None] stands for 0). *)
Theorem get_gdf_tolerance_not_a_number (layer : string) (perimeter projected : GeoDataFrame)
    (o : gdf_options) (d : Q) :
  project_gdf perimeter = Returns projected ->
  as_num (effective_dilate (o_dilate o)) = Returns d ->
  as_num (o_perimeter_tolerance o) = Raises TypeError ->
  get_gdf layer perimeter o = Done (Raises TypeError).
Proof.
  intros Hp Hd Ht. unfold get_gdf, perimeter_with_tolerance, py_bind.
  rewrite Hp, Hd, Ht. reflexivity.
Qed.

Lemma label_eqb_eq (a b : label) : label_eqb a b = true -> a = b.
Proof.
  destruct a, b; simpl; try discriminate; intros H.
  - apply Z.eqb_eq in H. now subst.
  - apply andb_prop in H as [H1 H2]. apply String.eqb_eq in H1. apply Z.eqb_eq in H2.
    now subst.
  - apply andb_prop in H as [H12 H3]. apply andb_prop in H12 as [H1 H2].
    apply Z.eqb_eq in H1, H2, H3. now subst.
Qed.

Lemma drop_empty_kept (g : GeoDataFrame) (r : label * geom) :
  In r (gdf_rows (drop_empty g)) <->
  In r (gdf_rows g) /\
  forall r', In r' (gdf_rows g) -> fst r' = fst r -> is_empty (snd r') = false.
Proof.
  unfold drop_empty, drop_labels, empty_labels. simpl. rewrite filter_In.
  split; intros [Hin H]; (split; [exact Hin |]).
  - intros r' Hr' Hl. destruct (is_empty (snd r')) eqn:E; [| reflexivity].
    apply negb_true_iff in H. rewrite <- H. symmetry. apply existsb_exists.
    exists (fst r'). split; [| rewrite Hl; apply label_eqb_refl].
    apply in_map. apply filter_In. split; assumption.
  - apply negb_true_iff. destruct (existsb _ _) eqn:E; [| reflexivity].
    apply existsb_exists in E as (l & Hl & Heq). apply label_eqb_eq in Heq.
    apply in_map_iff in Hl as (r' & Hfst & Hr'). apply filter_In in Hr' as [Hr' He].
    rewrite (H r' Hr') in He by congruence. discriminate.
Qed.

Lemma filter_sublist {A} (f : A -> bool) (l : list A) : sublist (List.filter f l) l.
Proof.
  induction l as [|a l IH]; simpl; [constructor |].
  destruct (f a); [apply sublist_skip | apply sublist_cons]; exact IH.
Qed.

(** X9. The rows [get_gdf] returns, exactly: a fetched row, clipped,
    is returned when no fetched row with its label has an empty
    intersection with the grown perimeter.  So a row is dropped with its
    empty namesakes, [drop] going by label. *)
Theorem get_gdf_rows (w : oracle) (n : nat) (layer : string)
    (perimeter : GeoDataFrame) (o : gdf_options) (g : GeoDataFrame) :
  fst (exec w n (get_gdf layer perimeter o)) = Returns g ->
  exists pwt fetched,
    perimeter_with_tolerance perimeter (effective_dilate (o_dilate o))
      (o_perimeter_tolerance o) = Returns pwt /\
    fst (exec w n (fetch_layer layer perimeter (bounds_box pwt) o)) = Returns fetched /\
    forall l y,
      In (l, y) (gdf_rows g) <->
      (exists x, In (l, x) (gdf_rows fetched) /\ y = intersection x pwt) /\
      (forall x, In (l, x) (gdf_rows fetched) -> is_empty (intersection x pwt) = false).
Proof.
  intros H. apply get_gdf_returns in H as (pwt & fetched & Hpwt & Hf & ->).
  exists pwt, fetched. split; [exact Hpwt |]. split; [exact Hf |].
  intros l y. rewrite drop_empty_kept. unfold map_geometry. simpl. split.
  - intros [Hin Hne]. apply in_map_iff in Hin as ([l' x] & [= <- <-] & Hin). split.
    + exists x. split; [exact Hin | reflexivity].
    + intros x' Hx'. apply (Hne (l', intersection x' pwt)); [| reflexivity].
      apply in_map_iff. exists (l', x'). split; [reflexivity | exact Hx'].
  - intros [(x & Hin & ->) Hne]. split.
    + apply in_map_iff. exists (l, x). split; [reflexivity | exact Hin].
    + intros [l' y'] Hr' Hl. simpl in *. subst l'.
      apply in_map_iff in Hr' as ([l' x'] & [= <- <-] & Hx'). now apply Hne.
Qed.

(** X10. When the labels of the fetched frame are all different,
    nothing but the empty intersections is lost: every fetched geometry
    that meets the grown perimeter is in the frame [get_gdf] returns,
    clipped, under its label. *)
Theorem get_gdf_keeps_nonempty (w : oracle) (n : nat) (layer : string)
    (perimeter : GeoDataFrame) (o : gdf_options) (g fetched : GeoDataFrame) (pwt : geom) :
  fst (exec w n (get_gdf layer perimeter o)) = Returns g ->
  perimeter_with_tolerance perimeter (effective_dilate (o_dilate o))
    (o_perimeter_tolerance o) = Returns pwt ->
  fst (exec w n (fetch_layer layer perimeter (bounds_box pwt) o)) = Returns fetched ->
  List.NoDup (map fst (gdf_rows fetched)) ->
  forall l x,
    In (l, x) (gdf_rows fetched) ->
    is_empty (intersection x pwt) = false ->
    In (l, intersection x pwt) (gdf_rows g).
Proof.
  intros H Hpwt Hf Hnd l x Hin Hne.
  apply get_gdf_returns in H as (pwt' & fetched' & Hpwt' & Hf' & ->).
  rewrite Hpwt in Hpwt'. injection Hpwt' as <-.
  rewrite Hf in Hf'. injection Hf' as <-.
  apply drop_empty_kept. unfold map_geometry. simpl. split.
  - apply in_map_iff. exists (l, x). split; [reflexivity | exact Hin].
  - intros [l' y'] Hr' Hl. simpl in *. subst l'.
    apply in_map_iff in Hr' as ([l' x'] & [= <- <-] & Hx').
    assert (x' = x); [| now subst].
    clear -Hnd Hin Hx'. induction (gdf_rows fetched) as [|[l0 x0] rows IH]; [contradiction |].
    simpl in Hnd. inversion Hnd as [| ? ? Hnotin Hnd']; subst.
    destruct Hin as [E | Hin]; destruct Hx' as [E' | Hx'].
    + congruence.
    + injection E as -> ->. exfalso. apply Hnotin.
      apply (in_map fst) in Hx'. exact Hx'.
    + injection E' as -> ->. exfalso. apply Hnotin.
      apply (in_map fst) in Hin. exact Hin.
    + now apply IH.
Qed.

(** X11. Clipping neither reorders nor relabels: the rows [get_gdf]
    returns are, in their order, rows of the fetched frame clipped, and
    the frame keeps the coordinate system of the fetched frame. *)
Theorem get_gdf_order (w : oracle) (n : nat) (layer : string)
    (perimeter : GeoDataFrame) (o : gdf_options) (g : GeoDataFrame) :
  fst (exec w n (get_gdf layer perimeter o)) = Returns g ->
  exists pwt fetched,
    perimeter_with_tolerance perimeter (effective_dilate (o_dilate o))
      (o_perimeter_tolerance o) = Returns pwt /\
    fst (exec w n (fetch_layer layer perimeter (bounds_box pwt) o)) = Returns fetched /\
    gdf_crs g = gdf_crs fetched /\
    sublist (gdf_rows g)
      (map (fun r => (fst r, intersection (snd r) pwt)) (gdf_rows fetched)).
Proof.
  intros H. apply get_gdf_returns in H as (pwt & fetched & Hpwt & Hf & ->).
  exists pwt, fetched. repeat split; [exact Hpwt | exact Hf |].
  apply filter_sublist.
Qed.


(** X13. Only the options [get_gdf] names count: two configurations
    that agree on them, whatever else they hold, lead to the same run. *)
Theorem call_get_gdf_named_options (layer : string) (perimeter : GeoDataFrame)
    (kwargs kwargs' : dict pyval) :
  (forall k, In k gdf_parameters -> dict_get kwargs k = dict_get kwargs' k) ->
  call_get_gdf layer perimeter kwargs = call_get_gdf layer perimeter kwargs'.
Proof.
  intros H. unfold call_get_gdf, bind_gdf_options, opt, dict_in. cbn [existsb].
  repeat match goal with
         | |- context [dict_get kwargs ?k] =>
             rewrite (H k) by (unfold gdf_parameters; simpl; tauto)
         end.
  reflexivity.
Qed.

End GdfMore.

(** ** [get_gdfs] *)

Section GdfsMore.

Context {L : GeoLib}.

Lemma keys_dict_set_new {V} (d : dict V) (k : string) (v : V) :
  ~ In k (keys d) -> keys (dict_set d k v) = keys d ++ [k].
Proof.
  induction d as [|[k' v'] d IH]; simpl; intros H; [reflexivity |].
  destruct (String.eqb_spec k' k) as [-> | Hne]; [exfalso; apply H; now left |].
  simpl. f_equal. apply IH. intros Hin. apply H. now right.
Qed.

Lemma keys_dict_update_new {V} (d2 : dict V) :
  forall d1 : dict V,
    List.NoDup (keys d2) ->
    (forall k, In k (keys d2) -> ~ In k (keys d1)) ->
    keys (dict_update d1 d2) = keys d1 ++ keys d2.
Proof.
  unfold dict_update. induction d2 as [|[k v] d2 IH]; intros d1 Hnd Hdis; simpl.
  - now rewrite app_nil_r.
  - inversion Hnd as [| ? ? Hnotin Hnd']; subst.
    rewrite IH; [| exact Hnd' |].
    + rewrite keys_dict_set_new by (apply Hdis; now left).
      now rewrite <- app_assoc.
    + intros k' Hk'. rewrite keys_dict_set. intros [-> | Hin]; [contradiction |].
      apply (Hdis k'); [now right | exact Hin].
Qed.

(** The comprehension keeps the order of [layers_dict]. *)
Lemma fetch_layers_keys (w : oracle) (perimeter : GeoDataFrame) (s : store)
    (items : list (string * loc)) :
  forall (n : nat) (acc others : dict GeoDataFrame),
    fst (fst (exec w n (fetch_layers items perimeter acc s))) = Returns others ->
    List.NoDup (keys items) ->
    (forall k, In k (keys acc) -> ~ In k (keys items)) ->
    keys others =
    keys acc ++ List.filter (fun k => negb (k =? "perimeter")%string) (keys items).
Proof.
  induction items as [|[layer c] items IH]; intros n acc others H Hnd Hdis.
  - simpl in H. injection H as <-. simpl. now rewrite app_nil_r.
  - simpl in Hnd. inversion Hnd as [| ? ? Hnotin Hnd']; subst.
    simpl in H. simpl. destruct (String.eqb_spec layer "perimeter") as [-> | Hne]; simpl in *.
    + apply (IH _ _ _ H Hnd'). intros k Hk Hin. apply (Hdis k Hk). now right.
    + apply st_bind_returns in H as (cfg & Hcfg & H).
      apply load_config_returns in Hcfg as [_ Hex]. rewrite Hex in H. simpl in H.
      apply st_bind_returns in H as (g & _ & H). rewrite exec_lift in H. simpl in H.
      rewrite (IH _ _ _ H Hnd').
      * rewrite keys_dict_set_new; [now rewrite <- app_assoc |].
        intros Hin. apply (Hdis layer Hin). now left.
      * intros k. rewrite keys_dict_set. intros [-> | Hk] Hin; [contradiction |].
        apply (Hdis k Hk). now right.
Qed.

(** X14. The dictionary [get_gdfs] returns is ordered: "perimeter"
    first, then the other layers in the order of [layers_dict]. *)
Theorem get_gdfs_key_order (w : oracle) (q : query) (layers_dict : loc)
    (radius : option Q) (ratio : Q) (dilate : option Q) (rotation : Q) (s : store)
    (layers : dict loc) (gdfs : dict GeoDataFrame) :
  s !! layers_dict = Some (OLayers layers) ->
  List.NoDup (keys layers) ->
  fst (run w (get_gdfs q layers_dict radius ratio dilate rotation s)) = Returns gdfs ->
  keys gdfs =
  "perimeter" :: List.filter (fun k => negb (k =? "perimeter")%string) (keys layers).
Proof.
  intros Hld Hnd H.
  apply get_gdfs_returns in H as (s' & kw & perimeter & layers' & others & n
                                   & Hun & _ & Hld' & Ho & ->).
  rewrite (Hun _ _ Hld) in Hld'. injection Hld' as <-.
  assert (Hk := fetch_layers_keys _ _ _ _ _ _ _ Ho Hnd (fun k (H : In k []) => match H with end)).
  simpl in Hk.
  destruct (fetch_layers_returns _ _ _ _ _ _ _ Ho Hnd (List.NoDup_nil _)) as (Hndo & _).
  rewrite keys_dict_update_new; [simpl; now rewrite Hk | exact Hndo |].
  intros k Hin [<- | []]. rewrite Hk in Hin. apply filter_In in Hin as [_ Hin].
  discriminate.
Qed.

Lemma get_gdfs_unfold (q : query) (layers_dict : loc) (radius : option Q) (ratio : Q)
    (dilate : option Q) (rotation : Q) :
  get_gdfs q layers_dict radius ratio dilate rotation =
  st_bind (get_perimeter_kwargs layers_dict)
    (gdfs_of_kwargs q layers_dict radius ratio dilate rotation).
Proof. reflexivity. Qed.

Lemma dict_remove_set {V} (d : dict V) (k : string) (v : V) :
  dict_remove (dict_set d k v) k = dict_remove d k.
Proof.
  induction d as [|[k' v'] d IH]; simpl.
  - now rewrite String.eqb_refl.
  - destruct (String.eqb_spec k' k) as [-> | Hne]; simpl.
    + now rewrite String.eqb_refl.
    + destruct (String.eqb_spec k' k); [contradiction | now rewrite IH].
Qed.

Lemma dict_get_remove_ne {V} (d : dict V) (k k' : string) :
  k <> k' -> dict_get (dict_remove d k) k' = dict_get d k'.
Proof.
  intros Hne. induction d as [|[k0 v0] d IH]; simpl; [reflexivity |].
  destruct (String.eqb_spec k0 k) as [-> | Hk]; simpl.
  - destruct (String.eqb_spec k k'); [contradiction | exact IH].
  - destruct (String.eqb_spec k0 k'); [reflexivity | exact IH].
Qed.

(** [perimeter_kwargs] when [layers_dict] has no "perimeter": the new
    empty dictionary. *)
Lemma get_perimeter_kwargs_default (layers_dict : loc) (s : store) (layers : dict loc) :
  s !! layers_dict = Some (OLayers layers) ->
  dict_get layers "perimeter" = None ->
  get_perimeter_kwargs layers_dict s =
    Done (Returns (fresh (dom s)), <[fresh (dom s) := OConfig []]> s).
Proof.
  intros Hld Hc.
  unfold get_perimeter_kwargs, deepcopy, st_bind, alloc, load_layers, load_config, getitem.
  simpl.
  rewrite (unchanged_alloc s (OConfig []) _ _ Hld). simpl.
  unfold dict_in. rewrite Hc. reflexivity.
Qed.

(** [perimeter_kwargs] when it has one, with a "dilate": a new
    dictionary with the other entries of the configuration. *)
Lemma get_perimeter_kwargs_copy (layers_dict : loc) (s : store)
    (layers : dict loc) (c : loc) (cfg : dict pyval) :
  s !! layers_dict = Some (OLayers layers) ->
  dict_get layers "perimeter" = Some c ->
  s !! c = Some (OConfig cfg) ->
  dict_in "dilate" cfg = true ->
  get_perimeter_kwargs layers_dict s =
    Done (Returns (fresh (dom (<[fresh (dom s) := OConfig []]> s))),
          <[fresh (dom (<[fresh (dom s) := OConfig []]> s))
              := OConfig (dict_remove cfg "dilate")]>
            (<[fresh (dom s) := OConfig []]> s)).
Proof.
  intros Hld Hc Hcfg Hd.
  unfold get_perimeter_kwargs, deepcopy, st_bind, alloc, load_layers, load_config, getitem.
  simpl.
  rewrite (unchanged_alloc s (OConfig []) _ _ Hld). simpl.
  unfold dict_in in *. rewrite Hc. simpl.
  rewrite (unchanged_alloc s (OConfig []) _ _ Hcfg). simpl.
  unfold dict_pop. rewrite lookup_insert_eq.
  destruct (dict_get cfg "dilate"); [| discriminate]. simpl.
  now rewrite insert_insert_eq.
Qed.

(** The outcome of the statements after [perimeter_kwargs]. *)
Lemma gdfs_of_kwargs_run (w : oracle) (n : nat) (q : query) (layers_dict : loc)
    (radius : option Q) (ratio : Q) (dilate : option Q) (rotation : Q)
    (pk : loc) (s : store) (kw : dict pyval) (layers : dict loc) :
  s !! pk = Some (OConfig kw) ->
  s !! layers_dict = Some (OLayers layers) ->
  fst (fst (exec w n (gdfs_of_kwargs q layers_dict radius ratio dilate rotation pk s))) =
  match fst (exec w n (call_get_perimeter q radius ratio rotation dilate kw)) with
  | Returns p =>
      match fst (fst (exec w
                        (snd (exec w n (call_get_perimeter q radius ratio rotation dilate kw)))
                        (fetch_layers layers p [] s))) with
      | Returns others => Returns (dict_update [("perimeter", p)] others)
      | Raises e => Raises e
      end
  | Raises e => Raises e
  end.
Proof.
  intros Hpk Hld. unfold gdfs_of_kwargs.
  assert (E1 : forall m, exec w m (load_config pk s) = ((Returns kw, s), m)).
  { intros m. unfold load_config. now rewrite Hpk. }
  assert (E2 : forall m, exec w m (load_layers layers_dict s) = ((Returns layers, s), m)).
  { intros m. unfold load_layers. now rewrite Hld. }
  rewrite exec_st_bind, E1. simpl.
  rewrite exec_st_bind, exec_lift. simpl.
  destruct (fst (exec w n (call_get_perimeter q radius ratio rotation dilate kw)))
    as [p | e]; [| reflexivity].
  rewrite exec_st_bind, E2. simpl.
  rewrite exec_st_bind.
  destruct (fst (fst (exec w _ (fetch_layers layers p [] s)))); reflexivity.
Qed.

Lemma fetch_layers_no_perimeter (w : oracle) (perimeter : GeoDataFrame) (s : store)
    (items : list (string * loc)) :
  forall (n : nat) (acc others : dict GeoDataFrame),
    fst (fst (exec w n (fetch_layers items perimeter acc s))) = Returns others ->
    dict_get others "perimeter" = dict_get acc "perimeter".
Proof.
  induction items as [|[layer c] items IH]; intros n acc others H; simpl in H.
  - now injection H as <-.
  - destruct (String.eqb_spec layer "perimeter") as [-> | Hne]; simpl in H.
    + now apply IH in H.
    + apply st_bind_returns in H as (cfg & Hcfg & H).
      apply load_config_returns in Hcfg as [_ Hex]. rewrite Hex in H. simpl in H.
      apply st_bind_returns in H as (g & _ & H). rewrite exec_lift in H. simpl in H.
      apply IH in H. rewrite H. now apply dict_get_set_ne.
Qed.

(** Stores that hold the same configurations for the layers to fetch
    give the same outcome. *)
Lemma fetch_layers_agree (w : oracle) (perimeter : GeoDataFrame) (s s' : store)
    (items : list (string * loc)) :
  (forall layer c, In (layer, c) items -> layer <> "perimeter" -> s' !! c = s !! c) ->
  forall (n : nat) (acc : dict GeoDataFrame),
    fst (fst (exec w n (fetch_layers items perimeter acc s'))) =
    fst (fst (exec w n (fetch_layers items perimeter acc s))).
Proof.
  induction items as [|[layer c] items IH]; intros Hag n acc; simpl; [reflexivity |].
  assert (Hag' : forall layer c, In (layer, c) items -> layer <> "perimeter" ->
                                 s' !! c = s !! c).
  { intros l0 c0 Hin. apply Hag. now right. }
  destruct (String.eqb_spec layer "perimeter") as [-> | Hne]; simpl; [now apply IH |].
  rewrite !exec_st_bind. unfold load_config.
  rewrite (Hag layer c) by (auto; now left).
  destruct (s !! c) as [[d | cfg] |]; simpl; try reflexivity.
  rewrite !exec_st_bind, !exec_lift. simpl.
  destruct (fst (exec w n (call_get_gdf layer perimeter cfg))); simpl;
    [now apply IH | reflexivity].
Qed.

Lemma get_gdfs_after_kwargs (q : query) (layers_dict : loc)
    (radius : option Q) (ratio : Q) (dilate : option Q) (rotation : Q)
    (s s3 : store) (pk : loc) :
  get_perimeter_kwargs layers_dict s = Done (Returns pk, s3) ->
  get_gdfs q layers_dict radius ratio dilate rotation s =
  gdfs_of_kwargs q layers_dict radius ratio dilate rotation pk s3.
Proof. intros H. rewrite get_gdfs_unfold. unfold st_bind at 1. now rewrite H. Qed.

(** [perimeter_kwargs], whichever way it is made. *)
Lemma get_perimeter_kwargs_options (layers_dict : loc) (s : store) (layers : dict loc)
    (kw : dict pyval) :
  s !! layers_dict = Some (OLayers layers) ->
  perimeter_options s layers = Some kw ->
  exists (pk : loc) (s3 : store),
    get_perimeter_kwargs layers_dict s = Done (Returns pk, s3) /\
    s3 !! pk = Some (OConfig kw) /\
    s3 !! layers_dict = Some (OLayers layers).
Proof.
  intros Hld H. unfold perimeter_options in H.
  destruct (dict_get layers "perimeter") as [c |] eqn:Hc.
  - destruct (s !! c) as [[d | cfg] |] eqn:Hcfg; try discriminate.
    destruct (dict_in "dilate" cfg) eqn:Hd; [| discriminate]. injection H as <-.
    eexists _, _. split; [now apply (get_perimeter_kwargs_copy _ _ _ _ _ Hld Hc Hcfg) |].
    split; [apply lookup_insert_eq |].
    apply unchanged_alloc, unchanged_alloc, Hld.
  - injection H as <-.
    eexists _, _. split; [now apply (get_perimeter_kwargs_default _ _ _ Hld Hc) |].
    split; [apply lookup_insert_eq | apply unchanged_alloc, Hld].
Qed.

(** X15. The perimeter in the dictionary [get_gdfs] returns is the
    one [get_perimeter] returns, first call of the run, for the query, the
    four arguments of [get_gdfs] and the perimeter configuration without
    its "dilate" (no keyword at all without a "perimeter" entry). *)
Theorem get_gdfs_perimeter_options (w : oracle) (q : query) (layers_dict : loc)
    (radius : option Q) (ratio : Q) (dilate : option Q) (rotation : Q) (s : store)
    (layers : dict loc) (kw : dict pyval) (gdfs : dict GeoDataFrame) :
  s !! layers_dict = Some (OLayers layers) ->
  perimeter_options s layers = Some kw ->
  fst (run w (get_gdfs q layers_dict radius ratio dilate rotation s)) = Returns gdfs ->
  exists p,
    fst (exec w 0 (call_get_perimeter q radius ratio rotation dilate kw)) = Returns p /\
    dict_get gdfs "perimeter" = Some p.
Proof.
  intros Hld Hkw H.
  destruct (get_perimeter_kwargs_options _ _ _ _ Hld Hkw) as (pk & s3 & Hdone & Hpk & Hld3).
  unfold run in H. rewrite (get_gdfs_after_kwargs _ _ _ _ _ _ _ _ _ Hdone) in H.
  rewrite (gdfs_of_kwargs_run _ _ _ _ _ _ _ _ _ _ _ _ Hpk Hld3) in H.
  destruct (fst (exec w 0 (call_get_perimeter q radius ratio rotation dilate kw)))
    as [p | e]; [| discriminate].
  destruct (fst (fst (exec w _ (fetch_layers layers p [] s3)))) as [others | e] eqn:Ho;
    [| discriminate].
  injection H as <-. exists p. split; [reflexivity |].
  rewrite dict_get_update_none; [simpl; reflexivity |].
  apply fetch_layers_no_perimeter in Ho. exact Ho.
Qed.

(** X16. The value under "dilate" in the perimeter configuration is
    thrown away: provided no other layer shares that configuration,
    [get_gdfs] has the same outcome whatever this value is. *)
Theorem get_gdfs_perimeter_dilate_unused (w : oracle) (q : query) (layers_dict : loc)
    (radius : option Q) (ratio : Q) (dilate : option Q) (rotation : Q) (s : store)
    (layers : dict loc) (c : loc) (cfg : dict pyval) (v : pyval) :
  s !! layers_dict = Some (OLayers layers) ->
  dict_get layers "perimeter" = Some c ->
  s !! c = Some (OConfig cfg) ->
  dict_in "dilate" cfg = true ->
  (forall layer c', In (layer, c') layers -> layer <> "perimeter" -> c' <> c) ->
  fst (run w (get_gdfs q layers_dict radius ratio dilate rotation
                (<[c := OConfig (dict_set cfg "dilate" v)]> s))) =
  fst (run w (get_gdfs q layers_dict radius ratio dilate rotation s)).
Proof.
  intros Hld Hc Hcfg Hd Hshare.
  set (cfg' := dict_set cfg "dilate" v). set (s' := <[c := OConfig cfg']> s).
  assert (Hne : c <> layers_dict) by (intros ->; congruence).
  assert (Hld' : s' !! layers_dict = Some (OLayers layers)).
  { unfold s'. now rewrite lookup_insert_ne. }
  assert (Hcfg' : s' !! c = Some (OConfig cfg')) by apply lookup_insert_eq.
  assert (Hd' : dict_in "dilate" cfg' = true).
  { unfold dict_in, cfg'. now rewrite dict_get_set_eq. }
  assert (Hdom : dom s' = dom s).
  { unfold s'. apply dom_insert_lookup_L. now rewrite Hcfg. }
  pose proof (get_perimeter_kwargs_copy _ _ _ _ _ Hld Hc Hcfg Hd) as Hs.
  pose proof (get_perimeter_kwargs_copy _ _ _ _ _ Hld' Hc Hcfg' Hd') as Hs'.
  unfold cfg' in Hs'. rewrite dict_remove_set in Hs'.
  assert (E1 : fresh (dom s') = fresh (dom s)) by now rewrite Hdom.
  assert (E2 : fresh (dom (<[fresh (dom s') := OConfig []]> s')) =
               fresh (dom (<[fresh (dom s) := OConfig []]> s))).
  { rewrite E1, !dom_insert_L, Hdom. reflexivity. }
  rewrite E2, E1 in Hs'.
  set (l1 := fresh (dom s)) in *.
  set (l2 := fresh (dom (<[l1 := OConfig []]> s))) in *.
  set (kw := dict_remove cfg "dilate") in *.
  unfold run.
  rewrite (get_gdfs_after_kwargs _ _ _ _ _ _ _ _ _ Hs), (get_gdfs_after_kwargs _ _ _ _ _ _ _ _ _ Hs').
  assert (Hl1 : l1 <> layers_dict).
  { intros E. pose proof (fresh_lookup s) as Hf. fold l1 in Hf. congruence. }
  assert (Hl2 : l2 <> layers_dict).
  { intros E. pose proof (fresh_lookup (<[l1 := OConfig []]> s)) as Hf. fold l2 in Hf.
    rewrite E, lookup_insert_ne, Hld in Hf by exact Hl1. discriminate. }
  rewrite (gdfs_of_kwargs_run _ _ _ _ _ _ _ _ _ _ kw layers);
    [| apply lookup_insert_eq | now rewrite !lookup_insert_ne].
  rewrite (gdfs_of_kwargs_run _ _ _ _ _ _ _ _ _ _ kw layers);
    [| apply lookup_insert_eq | now rewrite !lookup_insert_ne].
  destruct (fst (exec w 0 (call_get_perimeter q radius ratio rotation dilate kw)))
    as [p | e]; [| reflexivity].
  rewrite (fetch_layers_agree w p
             (<[l2 := OConfig kw]> (<[l1 := OConfig []]> s))
             (<[l2 := OConfig kw]> (<[l1 := OConfig []]> s'))); [reflexivity |].
  intros layer c' Hin Hlayer. specialize (Hshare _ _ Hin Hlayer).
  rewrite !lookup_insert. repeat case_decide; try reflexivity.
  unfold s'. now rewrite lookup_insert_ne.
Qed.

(** X17. A perimeter configuration that names "query", "radius",
    "ratio" or "rotation" repeats an argument [get_gdfs] already gives to
    [get_perimeter]: the call is a [TypeError], raised before anything is
    fetched. *)
Theorem get_gdfs_repeated_keyword (q : query) (layers_dict : loc)
    (radius : option Q) (ratio : Q) (dilate : option Q) (rotation : Q) (s : store)
    (layers : dict loc) (c : loc) (cfg : dict pyval) (k : string) :
  s !! layers_dict = Some (OLayers layers) ->
  dict_get layers "perimeter" = Some c ->
  s !! c = Some (OConfig cfg) ->
  dict_in "dilate" cfg = true ->
  In k ["query"; "radius"; "ratio"; "rotation"] ->
  dict_in k cfg = true ->
  exists s' : store,
    get_gdfs q layers_dict radius ratio dilate rotation s = Done (Raises TypeError, s').
Proof.
  intros Hld Hc Hcfg Hd Hk Hin.
  pose proof (get_perimeter_kwargs_copy _ _ _ _ _ Hld Hc Hcfg Hd) as Hs.
  rewrite (get_gdfs_after_kwargs _ _ _ _ _ _ _ _ _ Hs).
  eexists. unfold gdfs_of_kwargs, st_bind at 1, load_config.
  rewrite lookup_insert_eq. cbn [prog_bind fst snd].
  assert (Hcall : call_get_perimeter q radius ratio rotation dilate
                    (dict_remove cfg "dilate") = Done (Raises TypeError)).
  { unfold call_get_perimeter.
    replace (existsb _ _) with true; [reflexivity |]. symmetry.
    apply existsb_exists. exists k. split.
    - simpl in *. tauto.
    - unfold dict_in in *. rewrite dict_get_remove_ne; [exact Hin |].
      simpl in Hk. intuition (subst; discriminate). }
  unfold st_bind, lift. rewrite Hcall. reflexivity.
Qed.

End GdfsMore.

(** ** Further runs on the grid *)

Lemma get_boundary_geocodes_witness :
  calls Examples.osm 0%nat (get_boundary (QStr "Porto") 2 1 (PBool false) 0) =
    [(0%nat, Geocode (QStr "Porto"))] /\
  fst (exec Examples.osm 0%nat (get_boundary (QStr "Porto") 2 1 (PBool false) 0)) =
    match Examples.osm 0%nat (Geocode (QStr "Porto")) with
    | Returns point =>
        fst (exec Examples.osm 1%nat
               (get_boundary (QTuple (fst point) (snd point)) 2 1 (PBool false) 0))
    | Raises e => Raises e
    end.
Proof.
  apply (get_boundary_geocodes Examples.osm 0%nat (QStr "Porto") 2 1 (PBool false) 0).
  simpl. discriminate.
Defined.



Lemma get_perimeter_rows_witness :
  exists p0 c0,
    fst (exec Examples.osm 0
           (perimeter_source (QFrame Examples.square) None 1 (PBool false) (PBool false) 0 []))
      = Returns p0 /\
    gdf_crs p0 = Some c0 /\
    gdf_rows Cases.grown =
      map (fun r =>
             let utm := utm_crs (geometries p0) in
             let g := transform c0 utm (snd r) in
             (fst r, transform utm epsg4326 (buffer g 1)))
          (gdf_rows p0).
Proof.
  apply (get_perimeter_rows Examples.osm 0%nat (QFrame Examples.square) None 1 (PBool false)
           (PBool false) (Some 1%Q) 0 [] Cases.grown).
  reflexivity.
Defined.

Lemma get_gdf_perimeter_rejected_witness :
  get_gdf "building" Examples.no_rows Examples.plain = Done (Raises ValueError).
Proof.
  apply (get_gdf_perimeter_rejected "building" Examples.no_rows Examples.plain).
  left. reflexivity.
Defined.

Lemma get_gdf_tolerance_not_a_number_witness :
  get_gdf "building" Examples.square Cases.no_tolerance = Done (Raises TypeError).
Proof.
  apply (get_gdf_tolerance_not_a_number "building" Examples.square
           {| gdf_crs := Some (EPSG 32631); gdf_rows := gdf_rows Examples.square |}
           Cases.no_tolerance 0); reflexivity.
Defined.

Lemma get_gdf_rows_witness :
  exists pwt fetched,
    perimeter_with_tolerance Examples.square
      (effective_dilate (o_dilate Examples.plain))
      (o_perimeter_tolerance Examples.plain) = Returns pwt /\
    fst (exec Examples.osm 0
           (fetch_layer "building" Examples.square (bounds_box pwt) Examples.plain))
      = Returns fetched /\
    forall l y,
      In (l, y) (gdf_rows Examples.clipped_plain) <->
      (exists x, In (l, x) (gdf_rows fetched) /\ y = intersection x pwt) /\
      (forall x, In (l, x) (gdf_rows fetched) -> is_empty (intersection x pwt) = false).
Proof.
  apply (get_gdf_rows Examples.osm 0%nat "building" Examples.square Examples.plain
           Examples.clipped_plain).
  reflexivity.
Defined.

Lemma get_gdf_keeps_nonempty_witness :
  In (LElem "way" 11, Cases.terrace) (gdf_rows Examples.buildings) /\
  is_empty (intersection Cases.terrace (Grid.rect 0 0 1 1)) = false /\
  In (LElem "way" 11, intersection Cases.terrace (Grid.rect 0 0 1 1))
    (gdf_rows Examples.clipped_plain).
Proof.
  split; [left; reflexivity |]. split; [reflexivity |].
  apply (get_gdf_keeps_nonempty Examples.osm 0%nat "building" Examples.square Examples.plain
           Examples.clipped_plain Examples.buildings (Grid.rect 0 0 1 1)).
  - reflexivity.
  - reflexivity.
  - reflexivity.
  - repeat constructor; simpl; intuition discriminate.
  - left. reflexivity.
  - reflexivity.
Defined.

Lemma get_gdf_order_witness :
  exists pwt fetched,
    perimeter_with_tolerance Examples.square
      (effective_dilate (o_dilate Examples.tolerant))
      (o_perimeter_tolerance Examples.tolerant) = Returns pwt /\
    fst (exec Examples.osm 0
           (fetch_layer "building" Examples.square (bounds_box pwt) Examples.tolerant))
      = Returns fetched /\
    gdf_crs Examples.clipped_tolerant = gdf_crs fetched /\
    sublist (gdf_rows Examples.clipped_tolerant)
      (map (fun r => (fst r, intersection (snd r) pwt)) (gdf_rows fetched)).
Proof.
  apply (get_gdf_order Examples.osm 0%nat "building" Examples.square Examples.tolerant
           Examples.clipped_tolerant).
  reflexivity.
Defined.


Lemma call_get_gdf_named_options_witness :
  call_get_gdf "building" Examples.square Cases.tagged =
  call_get_gdf "building" Examples.square Cases.styled.
Proof.
  apply (call_get_gdf_named_options "building" Examples.square Cases.tagged Cases.styled).
  intros k Hk. simpl in Hk.
  repeat (destruct Hk as [<- | Hk]; [reflexivity |]). contradiction.
Defined.

Lemma get_gdfs_key_order_witness :
  keys Examples.fetched =
  "perimeter" :: List.filter (fun k => negb (k =? "perimeter")%string)
                   (keys [("perimeter", 2%nat); ("building", 3%nat)]).
Proof.
  apply (get_gdfs_key_order Examples.osm (QFrame Examples.square) 1%nat None 1 None 0
           Examples.layers_store [("perimeter", 2%nat); ("building", 3%nat)]
           Examples.fetched).
  - reflexivity.
  - repeat constructor; simpl; intuition discriminate.
  - reflexivity.
Defined.

Lemma get_gdfs_perimeter_options_witness :
  exists p,
    fst (exec Examples.osm 0
           (call_get_perimeter (QFrame Examples.square) None 1 0 None [])) = Returns p /\
    dict_get Examples.fetched "perimeter" = Some p.
Proof.
  apply (get_gdfs_perimeter_options Examples.osm (QFrame Examples.square) 1%nat None 1 None 0
           Examples.layers_store [("perimeter", 2%nat); ("building", 3%nat)] []
           Examples.fetched); reflexivity.
Defined.

Lemma get_gdfs_perimeter_dilate_unused_witness :
  fst (run Examples.osm
         (get_gdfs (QFrame Examples.square) 1%nat None 1 None 0
            (<[2%nat := OConfig (dict_set [("dilate", PNum 1)] "dilate" (PNum 50))]>
               Examples.layers_store))) =
  fst (run Examples.osm
         (get_gdfs (QFrame Examples.square) 1%nat None 1 None 0 Examples.layers_store)).
Proof.
  apply (get_gdfs_perimeter_dilate_unused Examples.osm (QFrame Examples.square) 1%nat None 1
           None 0 Examples.layers_store [("perimeter", 2%nat); ("building", 3%nat)]
           2%nat [("dilate", PNum 1)] (PNum 50)); try reflexivity.
  intros layer c' [E | [E | []]] Hl; injection E as <- <-; [congruence | discriminate].
Defined.

Lemma get_gdfs_repeated_keyword_witness :
  exists s' : store,
    @get_gdfs Grid.lib (QTuple 3 4) 1%nat None 1 None 0 Cases.radius_store =
    Done (Raises TypeError, s').
Proof.
  apply (@get_gdfs_repeated_keyword Grid.lib (QTuple 3 4) 1%nat None 1 None 0
           Cases.radius_store
           [("perimeter", 2%nat)] 2%nat [("dilate", PNum 1); ("radius", PNum 500)] "radius");
    try reflexivity.
  right. left. reflexivity.
Defined.
